(** * Octopus: graceful restart and shutdown of an HTTP server

    A shallow embedding of the Go package [Octopus] (listener acquisition,
    signal dispatcher, process forker, graceful shutdown) together with the
    properties of its control flow.

    The package is almost entirely made of calls into the Go runtime
    (os, net, syscall, encoding/json, net/http, log).  Those calls are the
    program's environment: they are gathered in the record [Platform], each
    one a function of the history of effects performed so far.  A function of
    the package is embedded as a computation that reads the history and
    emits the events it performs, in order. *)

From Stdlib Require Import ZArith List String Ascii Bool Lia.
From Stdlib Require Import DecimalString.
Import ListNotations.
Open Scope string_scope.
Open Scope list_scope.
Open Scope Z_scope.

(* ================================================================== *)
(** ** Data model *)

(** [os.Signal] values are [syscall.Signal], an integer.  The numbers are
    those of linux. *)
Definition Signal := Z.
Definition syscall_SIGHUP  : Signal := 1.
Definition syscall_SIGINT  : Signal := 2.
Definition syscall_SIGUSR1 : Signal := 10.
Definition syscall_SIGUSR2 : Signal := 12.
Definition syscall_SIGTERM : Signal := 15.

(** [time.Time] and [time.Duration] counted in nanoseconds. *)
Definition Time := Z.
Definition Duration := Z.
Definition time_Second : Duration := 1000000000.

Definition DefaultEnvVar : string := "OCTOPUS_LISTENER".
Definition DefaultNetwork : string := "tcp".
Definition DefaultAwaitTimeout : Duration := 5 * time_Second.

(** [*os.File]: a descriptor number and a name. *)
Record File := mkFile { file_fd : Z; file_Name : string }.

Definition os_Stdin  : File := mkFile 0 "/dev/stdin".
Definition os_Stdout : File := mkFile 1 "/dev/stdout".
Definition os_Stderr : File := mkFile 2 "/dev/stderr".

(** [net.Listener] is an interface; the type switch of [createListenerFile]
    tells [*net.TCPListener] and [*net.UnixListener] from every other
    implementation.  The number identifies the underlying socket. *)
Inductive Listener :=
| TCPListener (sock : Z)
| UnixListener (sock : Z)
| OtherListener (sock : Z).

(** The JSON record passed to the child through the environment. *)
Record listenerDescriptor := mkDescriptor {
  Addr : string;   (* `json:"addr"` *)
  FD   : Z;        (* `json:"FD"`   *)
  Name : string    (* `json:"Name"` *)
}.

(** [*http.Server], of which the package reads only [Addr]. *)
Record http_Server := mkServer { server_Addr : string }.

Record GracefulServer := mkGracefulServer {
  gs_Addr     : string;
  gs_PID      : Z;
  gs_Server   : http_Server;
  gs_Listener : option Listener    (* [None] is the nil interface *)
}.

Definition set_Listener (srv : GracefulServer) (l : option Listener) :=
  mkGracefulServer (gs_Addr srv) (gs_PID srv) (gs_Server srv) l.
Definition set_PID (srv : GracefulServer) (pid : Z) :=
  mkGracefulServer (gs_Addr srv) pid (gs_Server srv) (gs_Listener srv).

Record Process := mkProcess { Pid : Z }.

(** [os.ProcAttr]; [Sys] is the empty [&syscall.SysProcAttr{}]. *)
Inductive SysProcAttr := SysProcAttr_empty.
Record ProcAttr := mkProcAttr {
  Dir   : string;
  Env   : list string;
  Files : list File;
  Sys   : SysProcAttr
}.

(** A [context.Context] made by [context.WithTimeout]: its deadline. *)
Record Context := mkContext { ctx_Deadline : Time }.

(** Arguments of the formatting verbs.  Messages are kept as the format
    string of the source and its arguments, not rendered. *)
Inductive Arg :=
| AInt (n : Z)                      (* %d, %v of an int *)
| AStr (s : string)                 (* %s *)
| ASig (s : Signal)                 (* %q of a signal *)
| ATime (t : Time) (layout : string) (* %v of [t.Format(layout)] *)
| ATypeOf (l : option Listener)     (* %T *)
| AErr (e : error)                  (* %v of an error *)
with error :=
| errors_New (format : string) (args : list Arg)
      (* [fmt.Errorf(format, args...)], [errors.New(fmt.Sprintf(format, args...))] *)
| runtime_error (msg : string).
      (* an error value made by the Go runtime or standard library *)

Definition fmt_Errorf := errors_New.

(** A line handed to the [log] package.  The trailing newline of the
    source's format strings is left out: [log] ends every line with one. *)
Inductive LogLine :=
| Printf (format : string) (args : list Arg)
| Println (text : string).

(** Effects, each with the value the environment answered. *)
Inductive Event :=
| EvLog (l : LogLine)
| EvExit (code : Z)                                    (* os.Exit, from log.Fatalf *)
| EvGetenv (key : string) (res : string)
| EvNewFile (fd : Z) (name : string) (res : option File)
| EvFileListener (f : File) (res : Listener + error)
| EvListen (network address : string) (res : Listener + error)
| EvFileClose (f : File)
| EvListenerFile (l : Listener) (res : File + error)   (* t.File() *)
| EvEnviron (res : list string)
| EvExecutable (res : string + error)
| EvStartProcess (name : string) (argv : list string) (attr : ProcAttr)
                 (res : Process + error)
| EvKill (pid : Z) (sig : Signal) (res : option error)
| EvGetpid (res : Z)
| EvNow (res : Time)
| EvShutdown (server : http_Server) (ctx : Context) (res : option error)
| EvCancel (ctx : Context)
| EvGoServe (server : http_Server) (l : option Listener)
| EvGoServeTLS (server : http_Server) (l : option Listener)
               (certFile keyFile : string)
| EvServerClose (server : http_Server) (res : option error)
| EvNotify (hooks : list Signal)
| EvRecv (sig : Signal).                               (* <-sigChan *)

Definition History := list Event.

(** The Go runtime and operating system.  A call is answered from the
    history of the events before it, so the same call can be answered
    differently at different times. *)
Record Platform := mkPlatform {
  os_Getenv        : History -> string -> string;
  json_Unmarshal   : string -> listenerDescriptor + error;
  json_Marshal     : listenerDescriptor -> string + error;
  os_NewFile       : History -> Z -> string -> option File;
  net_FileListener : History -> File -> Listener + error;
  net_Listen       : History -> string -> string -> Listener + error;
  listener_File    : History -> Listener -> File + error;
  os_Environ       : History -> list string;
  os_Executable    : History -> string + error;
  filepath_Dir     : string -> string;
  os_StartProcess  : History -> string -> list string -> ProcAttr ->
                     Process + error;
  syscall_Kill     : History -> Z -> Signal -> option error;
  syscall_Getpid   : History -> Z;
  time_Now         : History -> Time;
  server_Shutdown  : History -> http_Server -> Context -> option error;
  server_Close     : History -> http_Server -> option error
}.

(* ================================================================== *)
(** ** Computations: read the history, emit events *)

Definition M (A : Type) := History -> A * list Event.

Definition ret {A} (a : A) : M A := fun _ => (a, []).

Definition bind {A B} (m : M A) (f : A -> M B) : M B :=
  fun h =>
    let (a, e1) := m h in
    let (b, e2) := f a (h ++ e1) in
    (b, e1 ++ e2).

(** An effect with no answer. *)
Definition emit (e : Event) : M unit := fun _ => (tt, [e]).

(** A call to the environment: ask, record the event, give the answer. *)
Definition call {R} (ask : History -> R) (ev : R -> Event) : M R :=
  fun h => let r := ask h in (r, [ev r]).

Declare Scope go_scope.
Delimit Scope go_scope with go.
Notation "x <- m ;; k" := (bind m (fun x => k))
  (at level 61, m at next level, right associativity) : go_scope.
Notation "m ;; k" := (bind m (fun _ => k))
  (at level 61, right associativity) : go_scope.
Open Scope go_scope.

Definition log_Printf (format : string) (args : list Arg) : M unit :=
  emit (EvLog (Printf format args)).
Definition log_Println (text : string) : M unit :=
  emit (EvLog (Println text)).

(** How a function that may not come back ends. *)
Inductive Outcome (A : Type) :=
| Returned (a : A)      (* the function returned *)
| Exited (code : Z)     (* the process exited inside it *)
| Blocked.              (* it waits for a signal that never comes *)
Arguments Returned {A} a.
Arguments Exited {A} code.
Arguments Blocked {A}.

(** [log.Fatalf]: print, then [os.Exit(1)]. *)
Definition log_Fatalf {A} (format : string) (args : list Arg) : M (Outcome A) :=
  log_Printf format args ;;
  emit (EvExit 1) ;;
  ret (Exited 1).

(** What one iteration of the signal loop decides. *)
Inductive LoopCtl :=
| Continue                       (* next iteration: still Running *)
| Return (err : option error).   (* return from handleSignals: Terminated *)

Notation "' pat <- m ;; k" := (bind m (fun x => match x with pat => k end))
  (at level 61, pat pattern, m at next level, right associativity) : go_scope.

(** [uintptr(n)] of an [int]: the value modulo 2^64. *)
Definition uintptr (n : Z) : Z := n mod 2 ^ 64.

(* ================================================================== *)
(** ** The package *)

Section Octopus.

Variable P : Platform.

(** [createListenerFile] *)
Definition createListenerFile (l : option Listener) : M (File + error) :=
  match l with
  | Some (TCPListener s) =>
      call (fun h => listener_File P h (TCPListener s))
           (EvListenerFile (TCPListener s))
  | Some (UnixListener s) =>
      call (fun h => listener_File P h (UnixListener s))
           (EvListenerFile (UnixListener s))
  | _ => ret (inr (fmt_Errorf "unsupported listener: %T" [ATypeOf l]))
  end.

(** [importListener]: the error, and the server as the method leaves it. *)
Definition importListener (srv : GracefulServer) (env : string)
  : M (option error * GracefulServer) :=
  match json_Unmarshal P env with
  | inr _ =>
      ret (Some (fmt_Errorf "unable to unmarsh [%s] environment variable"
                            [AStr env]), srv)
  | inl fl =>
      if negb (String.eqb (Addr fl) (gs_Addr srv)) then
        ret (Some (fmt_Errorf "unable to find listener on %s"
                              [AStr (gs_Addr srv)]), srv)
      else
        f <- call (fun h => os_NewFile P h (uintptr (FD fl)) (Name fl))
                  (EvNewFile (uintptr (FD fl)) (Name fl)) ;;
        match f with
        | None =>
            ret (Some (fmt_Errorf "unable to create listener file %s"
                                  [AStr (Name fl)]), srv)
        | Some f =>
            (* defer f.Close() *)
            r <- call (fun h => net_FileListener P h f) (EvFileListener f) ;;
            match r with
            | inr err =>
                emit (EvFileClose f) ;;
                ret (Some err, set_Listener srv None)
            | inl l =>
                emit (EvFileClose f) ;;
                ret (None, set_Listener srv (Some l))
            end
        end
  end.

(** [newListener] *)
Definition newListener (srv : GracefulServer)
  : M (option error * GracefulServer) :=
  r <- call (fun h => net_Listen P h DefaultNetwork (gs_Addr srv))
            (EvListen DefaultNetwork (gs_Addr srv)) ;;
  match r with
  | inr err => ret (Some err, set_Listener srv None)
  | inl l => ret (None, set_Listener srv (Some l))
  end.

(** [createListener] *)
Definition createListener (srv : GracefulServer)
  : M (option error * GracefulServer) :=
  (* the part after the [if env != ""] block *)
  let fresh (srv : GracefulServer) : M (option error * GracefulServer) :=
    '(err, srv) <- newListener srv ;;
    match err with
    | Some e => ret (Some e, srv)
    | None =>
        log_Printf "[INFO] Created a new listener on %s." [AStr (gs_Addr srv)] ;;
        ret (None, srv)
    end in
  env <- call (fun h => os_Getenv P h DefaultEnvVar) (EvGetenv DefaultEnvVar) ;;
  if negb (String.eqb env "") then
    '(err, srv) <- importListener srv env ;;
    match err with
    | None =>
        log_Println "[INFO] Imported a listener from file." ;;
        ret (None, srv)
    | Some e =>
        log_Printf
          "[INFO] Unable to import a listener from file: %v. Trying to create a new one."
          [AErr e] ;;
        fresh srv
    end
  else fresh srv.

(** [forkChild] *)
Definition forkChild (srv : GracefulServer) (killMaster : bool) (mpid : Z)
  : M (option error) :=
  r <- createListenerFile (gs_Listener srv) ;;
  match r with
  | inr err => ret (Some err)
  | inl f =>
      (* defer f.Close() *)
      res <-
        (let l := mkDescriptor (gs_Addr srv) 3 (file_Name f) in
         match json_Marshal P l with
         | inr err => ret (Some err)
         | inl env =>
             let files := [os_Stdin; os_Stdout; os_Stderr; f] in
             environ <- call (os_Environ P) EvEnviron ;;
             let environment :=
               environ ++ [(DefaultEnvVar ++ "=" ++ env)%string] in
             ex <- call (os_Executable P) EvExecutable ;;
             match ex with
             | inr err => ret (Some err)
             | inl exec =>
                 let execDir := filepath_Dir P exec in
                 let attr :=
                   mkProcAttr execDir environment files SysProcAttr_empty in
                 p <- call (fun h => os_StartProcess P h exec [exec] attr)
                           (EvStartProcess exec [exec] attr) ;;
                 match p with
                 | inr err => ret (Some err)
                 | inl p =>
                     log_Printf "[INFO] Forked child (%v)." [AInt (Pid p)] ;;
                     if killMaster then
                       err <- call (fun h => syscall_Kill P h mpid syscall_SIGTERM)
                                   (EvKill mpid syscall_SIGTERM) ;;
                       match err with
                       | Some err =>
                           ret (Some (errors_New
                                        "unable to kill the master (%d): %v"
                                        [AInt mpid; AErr err]))
                       | None =>
                           log_Printf "[INFO] Master (%v) was killed."
                                      [AInt mpid] ;;
                           ret None
                       end
                     else
                       log_Printf "[INFO] Master (%v) is still alive."
                                  [AInt mpid] ;;
                       ret None
                 end
             end
         end) ;;
      emit (EvFileClose f) ;;
      ret res
  end.

(** [shutDown] *)
Definition shutDown (srv : GracefulServer) : M (option error) :=
  (* context.WithTimeout(context.Background(), DefaultAwaitTimeout) *)
  now <- call (time_Now P) EvNow ;;
  let ctx := mkContext (now + DefaultAwaitTimeout) in
  let expired := ctx_Deadline ctx in
  log_Printf "[INFO] Digesting requests will be timed out at %v"
             [ATime expired "2006-01-02 15:04:05"] ;;
  (* defer cancel() *)
  err <- call (fun h => server_Shutdown P h (gs_Server srv) ctx)
              (EvShutdown (gs_Server srv) ctx) ;;
  emit (EvCancel ctx) ;;
  ret err.

(** [GracefulShutDown] *)
Definition GracefulShutDown (server : http_Server) : M (option error) :=
  now <- call (time_Now P) EvNow ;;
  let ctx := mkContext (now + DefaultAwaitTimeout) in
  let expired := ctx_Deadline ctx in
  log_Printf "[INFO] Digesting requests will be timed out at %v"
             [ATime expired "2006-01-02 15:04:05"] ;;
  err <- call (fun h => server_Shutdown P h server ctx)
              (EvShutdown server ctx) ;;
  emit (EvCancel ctx) ;;
  ret err.

Definition sigHooks : list Signal :=
  [syscall_SIGHUP; syscall_SIGUSR1; syscall_SIGUSR2; syscall_SIGINT;
   syscall_SIGTERM].

(** The body of the [for] loop of [handleSignals], for the signal received. *)
Definition handleSignals_body (srv : GracefulServer) (killMaster : bool)
           (mpid : Z) (sig : Signal) : M LoopCtl :=
  emit (EvRecv sig) ;;
  log_Printf "[INFO] Server (%d) received signal %q." [AInt mpid; ASig sig] ;;
  if sig =? syscall_SIGHUP then
    err <- forkChild srv killMaster mpid ;;
    match err with
    | Some err =>
        log_Printf "[ERR] Unable to fork a child: %v." [AErr err] ;;
        ret Continue
    | None =>
        e <- shutDown srv ;;
        ret (Return e)
    end
  else if (sig =? syscall_SIGUSR1) || (sig =? syscall_SIGUSR2) then
    err <- forkChild srv killMaster mpid ;;
    match err with
    | Some err =>
        log_Printf "[ERR] Unable to fork a child: %v." [AErr err] ;;
        ret Continue
    | None => ret Continue
    end
  else if (sig =? syscall_SIGINT) || (sig =? syscall_SIGTERM) then
    e <- shutDown srv ;;
    ret (Return e)
  else
    log_Printf "[INFO] The signal %q is not a hooked one, ignored!" [ASig sig] ;;
    ret Continue.

(** The [for] loop, run on the signals that [sigChan] delivers, in order.
    When they are used up the receive blocks. *)
Fixpoint handleSignals_loop (srv : GracefulServer) (killMaster : bool)
         (mpid : Z) (sigs : list Signal) : M (Outcome (option error)) :=
  match sigs with
  | [] => ret Blocked
  | sig :: rest =>
      c <- handleSignals_body srv killMaster mpid sig ;;
      match c with
      | Continue => handleSignals_loop srv killMaster mpid rest
      | Return e => ret (Returned e)
      end
  end.

(** [signal.Notify(c, hooks...)]: of the signals that come in for the
    process the channel relays those of [hooks], in their order, and no
    other.  A signal that is not relayed is left to the Go runtime. *)
Definition hooked (hooks : list Signal) (sig : Signal) : bool :=
  existsb (Z.eqb sig) hooks.

Definition signal_Notify (hooks : list Signal) (incoming : list Signal)
  : list Signal :=
  filter (hooked hooks) incoming.

(** [handleSignals], run on the signals [sigs] that come in for the process
    while it runs: [sigChan] is registered for [sigHooks], and the loop
    receives what the channel relays. *)
Definition handleSignals (srv : GracefulServer) (killMaster : bool) (mpid : Z)
           (sigs : list Signal) : M (Outcome (option error)) :=
  emit (EvNotify sigHooks) ;;
  handleSignals_loop srv killMaster mpid (signal_Notify sigHooks sigs).

(** [GracefulServe].  The named result [gs] is never assigned. *)
Definition GracefulServe (server : http_Server) (killMaster : bool)
           (sigs : list Signal)
  : M (Outcome (option GracefulServer * option error)) :=
  let gs : option GracefulServer := None in
  let srv := mkGracefulServer (server_Addr server) 0 server None in
  '(err, srv) <- createListener srv ;;
  match err with
  | Some err => log_Fatalf "[ERR] Unable to create a listener: %v." [AErr err]
  | None =>
      emit (EvGoServe (gs_Server srv) (gs_Listener srv)) ;;
      pid <- call (syscall_Getpid P) EvGetpid ;;
      let srv := set_PID srv pid in
      log_Printf "[INFO] The server has started (%d)." [AInt (gs_PID srv)] ;;
      o <- handleSignals srv killMaster (gs_PID srv) sigs ;;
      match o with
      | Returned (Some err) =>
          log_Fatalf "[ERR] The server has shut down: %v" [AErr err]
      | Returned None =>
          log_Printf "[INFO] The server has shut down." [] ;;
          ret (Returned (gs, None))
      | Exited c => ret (Exited c)
      | Blocked => ret Blocked
      end
  end.

(** [GracefulServeTLS] *)
Definition GracefulServeTLS (server : http_Server) (killMaster : bool)
           (certFile keyFile : string) (sigs : list Signal)
  : M (Outcome (option error)) :=
  let srv := mkGracefulServer (server_Addr server) 0 server None in
  '(err, srv) <- createListener srv ;;
  match err with
  | Some err => log_Fatalf "[ERR] Unable to create a listener: %v." [AErr err]
  | None =>
      emit (EvGoServeTLS (gs_Server srv) (gs_Listener srv) certFile keyFile) ;;
      _ <- call (fun h => server_Close P h server) (EvServerClose server) ;;
      pid <- call (syscall_Getpid P) EvGetpid ;;
      let srv := set_PID srv pid in
      log_Printf "[INFO] The server has started (%d)." [AInt (gs_PID srv)] ;;
      o <- handleSignals srv killMaster (gs_PID srv) sigs ;;
      match o with
      | Returned (Some err) =>
          log_Fatalf "[ERR] The server has shut down: %v" [AErr err]
      | Returned None =>
          log_Printf "[INFO] The server has shut down." [] ;;
          ret (Returned None)
      | Exited c => ret (Exited c)
      | Blocked => ret Blocked
      end
  end.

End Octopus.

(* ================================================================== *)
(** ** Observations on the events of a run *)

Definition is_StartProcess (e : Event) : bool :=
  match e with EvStartProcess _ _ _ _ => true | _ => false end.
Definition is_Shutdown (e : Event) : bool :=
  match e with EvShutdown _ _ _ => true | _ => false end.
Definition is_Listen (e : Event) : bool :=
  match e with EvListen _ _ _ => true | _ => false end.
Definition is_ServeTLS (e : Event) : bool :=
  match e with EvGoServeTLS _ _ _ _ => true | _ => false end.
Definition is_Notify (e : Event) : bool :=
  match e with EvNotify _ => true | _ => false end.

(** The line that [createListener] logs when the import failed. *)
Definition import_failure (e : error) : Event :=
  EvLog (Printf
    "[INFO] Unable to import a listener from file: %v. Trying to create a new one."
    [AErr e]).
Definition is_import_failure (e : Event) : bool :=
  match e with
  | EvLog (Printf f [AErr _]) =>
      String.eqb f
        "[INFO] Unable to import a listener from file: %v. Trying to create a new one."
  | _ => false
  end.

(** How many events of a run satisfy [p]. *)
Definition count (p : Event -> bool) (evs : list Event) : nat :=
  List.length (filter p evs).

(* ================================================================== *)
(** ** Definitions used to state the properties *)

(** Graceful shutdown as the specification words it: an optional override
    of the timeout, which defaults to the constant; the deadline is now plus
    the timeout; the deadline is logged; the serving engine is asked to
    drain until the deadline.  To be compared with [shutDown]. *)
Definition spec_shutDown (P : Platform) (srv : GracefulServer)
           (override : option Duration) : M (option error) :=
  let timeout :=
    match override with Some d => d | None => DefaultAwaitTimeout end in
  now <- call (time_Now P) EvNow ;;
  let ctx := mkContext (now + timeout) in
  log_Printf "[INFO] Digesting requests will be timed out at %v"
             [ATime (now + timeout) "2006-01-02 15:04:05"] ;;
  err <- call (fun h => server_Shutdown P h (gs_Server srv) ctx)
              (EvShutdown (gs_Server srv) ctx) ;;
  emit (EvCancel ctx) ;;
  ret err.

(** The events of [n] iterations of the signal loop, all for the signal
    [sig], from the history [h]. *)
Fixpoint deliveries (P : Platform) (srv : GracefulServer) (killMaster : bool)
         (mpid : Z) (sig : Signal) (n : nat) (h : History) : list Event :=
  match n with
  | O => []
  | S n' =>
      let evs := deliveries P srv killMaster mpid sig n' h in
      evs ++ snd (handleSignals_body P srv killMaster mpid sig (h ++ evs))
  end.

(** The two effects at the head of every iteration of the signal loop. *)
Definition received (mpid : Z) (sig : Signal) : list Event :=
  [EvRecv sig;
   EvLog (Printf "[INFO] Server (%d) received signal %q." [AInt mpid; ASig sig])].

(** The line that the loop logs when [forkChild] returned an error. *)
Definition fork_failure (e : error) : Event :=
  EvLog (Printf "[ERR] Unable to fork a child: %v." [AErr e]).

(** The payload [env], read with the history [h1], yields the listener [l]:
    it parses, its address is the one requested, the descriptor slot gives a
    file and that file gives the listener. *)
Definition reconstructs (P : Platform) (srv : GracefulServer) (env : string)
           (h1 : History) (l : Listener) : Prop :=
  exists fl f,
    json_Unmarshal P env = inl fl /\
    Addr fl = gs_Addr srv /\
    os_NewFile P h1 (uintptr (FD fl)) (Name fl) = Some f /\
    net_FileListener P
      (h1 ++ [EvNewFile (uintptr (FD fl)) (Name fl) (Some f)]) f = inl l.

(** Further observations on events. *)
Definition is_Kill (e : Event) : bool :=
  match e with EvKill _ _ _ => true | _ => false end.
Definition is_FileClose (e : Event) : bool :=
  match e with EvFileClose _ => true | _ => false end.
Definition is_NewFile (e : Event) : bool :=
  match e with EvNewFile _ _ _ => true | _ => false end.
Definition is_FileListener (e : Event) : bool :=
  match e with EvFileListener _ _ => true | _ => false end.
Definition is_ServerClose (e : Event) : bool :=
  match e with EvServerClose _ _ => true | _ => false end.
Definition is_GoServe (e : Event) : bool :=
  match e with EvGoServe _ _ => true | _ => false end.

(** A file handed out by the environment: by [os.NewFile] or by [File()] of
    a listener. *)
Definition is_opened (e : Event) : bool :=
  match e with
  | EvNewFile _ _ (Some _) => true
  | EvListenerFile _ (inl _) => true
  | _ => false
  end.

(** The kinds of effect that handling signals is made of. *)
Definition dispatcher_event (e : Event) : bool :=
  match e with
  | EvRecv _ | EvLog _ | EvListenerFile _ _ | EvEnviron _ | EvExecutable _
  | EvStartProcess _ _ _ _ | EvKill _ _ _ | EvFileClose _ | EvNow _
  | EvShutdown _ _ _ | EvCancel _ => true
  | _ => false
  end.

(** The kinds of effect that acquiring a listener is made of. *)
Definition acquisition_event (e : Event) : bool :=
  match e with
  | EvGetenv _ _ | EvNewFile _ _ _ | EvFileListener _ _ | EvFileClose _
  | EvListen _ _ _ | EvLog _ => true
  | _ => false
  end.

(** An event that is no signal sent, or is the terminate signal sent to
    [mpid] with the kill-master flag set. *)
Definition signals_master (killMaster : bool) (mpid : Z) (e : Event) : Prop :=
  forall pid sig res,
    e = EvKill pid sig res ->
    killMaster = true /\ pid = mpid /\ sig = syscall_SIGTERM.


(** A listener kind that [createListenerFile] can turn into a file. *)
Definition supported (l : option Listener) : bool :=
  match l with
  | Some (TCPListener _) | Some (UnixListener _) => true
  | _ => false
  end.

(* ================================================================== *)
(** ** A concrete platform

    A small, fully computable environment on which the package can be run.
    Its codec writes the descriptor the way [encoding/json] does for
    printable ASCII strings (field order and names of the struct tags, the
    escapes of the quote, the backslash and of the characters <, > and &),
    and reads back texts of that shape. *)

Module Sim.

Definition quote : ascii := ascii_of_nat 34.
Definition backslash : ascii := ascii_of_nat 92.
Definition q (s : string) : string := String quote (s ++ String quote "").

Fixpoint escape (s : string) : string :=
  match s with
  | EmptyString => EmptyString
  | String c s' =>
      let e :=
        if Ascii.eqb c quote then String backslash (String quote "")
        else if Ascii.eqb c backslash then String backslash (String backslash "")
        else if Ascii.eqb c "<" then String backslash "u003c"
        else if Ascii.eqb c ">" then String backslash "u003e"
        else if Ascii.eqb c "&" then String backslash "u0026"
        else String c "" in
      (e ++ escape s')%string
  end.

Definition encode_int (n : Z) : string := NilZero.string_of_int (Z.to_int n).

Definition encode (l : listenerDescriptor) : string :=
  ("{" ++ q "addr" ++ ":" ++ q (escape (Addr l)) ++ ","
       ++ q "FD" ++ ":" ++ encode_int (FD l) ++ ","
       ++ q "Name" ++ ":" ++ q (escape (Name l)) ++ "}")%string.

Fixpoint strip (p s : string) : option string :=
  match p, s with
  | EmptyString, _ => Some s
  | String a p', String b s' => if Ascii.eqb a b then strip p' s' else None
  | String _ _, EmptyString => None
  end.

Definition hex (c : ascii) : option N :=
  let n := N_of_ascii c in
  if (48 <=? n)%N && (n <=? 57)%N then Some (n - 48)%N
  else if (97 <=? n)%N && (n <=? 102)%N then Some (n - 87)%N
  else if (65 <=? n)%N && (n <=? 70)%N then Some (n - 55)%N
  else None.

(** The body of a JSON string up to its closing quote, and what follows. *)
Fixpoint read_string (s : string) : option (string * string) :=
  match s with
  | EmptyString => None
  | String c s' =>
      if Ascii.eqb c quote then Some (EmptyString, s')
      else if Ascii.eqb c backslash then
        match s' with
        | String "u" (String a (String b (String c1 (String c2 s''))))  =>
            match hex a, hex b, hex c1, hex c2 with
            | Some 0%N, Some 0%N, Some x, Some y =>
                if (x <? 8)%N then
                  match read_string s'' with
                  | Some (r, t) => Some (String (ascii_of_N (16 * x + y)) r, t)
                  | None => None
                  end
                else None
            | _, _, _, _ => None
            end
        | String e s'' =>
            if Ascii.eqb e quote || Ascii.eqb e backslash || Ascii.eqb e "/" then
              match read_string s'' with
              | Some (r, t) => Some (String e r, t)
              | None => None
              end
            else None
        | EmptyString => None
        end
      else
        match read_string s' with
        | Some (r, t) => Some (String c r, t)
        | None => None
        end
  end.

Definition digit (c : ascii) : option Z :=
  let n := N_of_ascii c in
  if (48 <=? n)%N && (n <=? 57)%N then Some (Z.of_N (n - 48)) else None.

(** The digits at the head of [s], read onto [acc], and what follows. *)
Fixpoint read_digits (acc : Z) (s : string) : Z * string :=
  match s with
  | EmptyString => (acc, s)
  | String c s' =>
      match digit c with
      | Some d => read_digits (10 * acc + d) s'
      | None => (acc, s)
      end
  end.

Definition read_int (s : string) : option (Z * string) :=
  match s with
  | String "-" (String c s') =>
      match digit c with
      | Some d => let (n, t) := read_digits d s' in Some (- n, t)
      | None => None
      end
  | String c s' =>
      match digit c with
      | Some d => let (n, t) := read_digits d s' in Some (n, t)
      | None => None
      end
  | EmptyString => None
  end.

Definition decode (s : string) : option listenerDescriptor :=
  match strip ("{" ++ q "addr" ++ ":" ++ String quote "") s with
  | None => None
  | Some s1 =>
  match read_string s1 with
  | None => None
  | Some (addr, s2) =>
  match strip ("," ++ q "FD" ++ ":") s2 with
  | None => None
  | Some s3 =>
  match read_int s3 with
  | None => None
  | Some (fd, s4) =>
  match strip ("," ++ q "Name" ++ ":" ++ String quote "") s4 with
  | None => None
  | Some s5 =>
  match read_string s5 with
  | None => None
  | Some (name, s6) =>
      if String.eqb s6 "}" then Some (mkDescriptor addr fd name) else None
  end end end end end end.

(** What the environment answers in one run. *)
Record Scenario := mkScenario {
  payload      : string;            (* value of OCTOPUS_LISTENER *)
  socket_at    : Z -> bool;         (* descriptors that hold a listening socket *)
  bind_ok      : bool;              (* net.Listen succeeds *)
  dup_ok       : bool;              (* Listener.File succeeds *)
  start_ok     : bool;              (* os.StartProcess succeeds *)
  kill_ok      : bool;              (* syscall.Kill succeeds *)
  drained      : bool;              (* Shutdown finishes before the deadline *)
  clock        : Time;              (* time.Now *)
  own_pid      : Z
}.

Definition platform (sc : Scenario) : Platform := {|
  os_Getenv := fun _ key =>
    if String.eqb key DefaultEnvVar then payload sc else "";
  json_Unmarshal := fun s =>
    match decode s with
    | Some l => inl l
    | None => inr (runtime_error "invalid character")
    end;
  json_Marshal := fun l => inl (encode l);
  os_NewFile := fun _ fd name =>
    (* nil when the descriptor, read as an int, is negative *)
    if 2 ^ 63 <=? fd then None else Some (mkFile fd name);
  net_FileListener := fun _ f =>
    if socket_at sc (file_fd f) then inl (TCPListener (file_fd f))
    else inr (runtime_error "socket operation on non-socket");
  net_Listen := fun _ _ _ =>
    if bind_ok sc then inl (TCPListener 6)
    else inr (runtime_error "address already in use");
  listener_File := fun _ l =>
    if dup_ok sc then inl (mkFile 7 "tcp:127.0.0.1:8080->")
    else inr (runtime_error "too many open files");
  os_Environ := fun _ => ["HOME=/root"];
  os_Executable := fun _ => inl "/srv/bin/server";
  filepath_Dir := fun _ => "/srv/bin";
  os_StartProcess := fun h _ _ _ =>
    if start_ok sc
    then inl (mkProcess
                (own_pid sc + 1 + Z.of_nat (List.length (filter is_StartProcess h))))
    else inr (runtime_error "fork/exec: resource temporarily unavailable");
  syscall_Kill := fun _ _ _ =>
    if kill_ok sc then None else Some (runtime_error "operation not permitted");
  syscall_Getpid := fun _ => own_pid sc;
  time_Now := fun h => clock sc + Z.of_nat (List.length h);
  server_Shutdown := fun _ _ _ =>
    if drained sc then None else Some (runtime_error "context deadline exceeded");
  server_Close := fun _ _ => None
|}.

(** Nothing inherited, every call succeeds. *)
Definition calm : Scenario :=
  mkScenario "" (fun _ => false) true true true true true 1554970152000000000 52233.

Definition with_payload (sc : Scenario) (s : string) : Scenario :=
  mkScenario s (socket_at sc) (bind_ok sc) (dup_ok sc) (start_ok sc)
             (kill_ok sc) (drained sc) (clock sc) (own_pid sc).

(** A child started by a parent that listens on [addr]: the descriptor is
    in the environment and slot 3 holds the socket. *)
Definition inherited (addr name : string) (fd : Z) : Scenario :=
  mkScenario (encode (mkDescriptor addr fd name)) (fun n => n =? 3)
             true true true true true 1554970152000000000 55344.

Definition fork_failing : Scenario :=
  mkScenario "" (fun _ => false) true true false true true 1554970152000000000 52233.

Definition kill_failing : Scenario :=
  mkScenario "" (fun _ => false) true true true false true 1554970152000000000 52233.

Definition stuck : Scenario :=
  mkScenario "" (fun _ => false) true true true true false 1554970152000000000 52233.

Definition server : http_Server := mkServer "localhost:8080".

Definition master : GracefulServer :=
  mkGracefulServer "localhost:8080" 52233 server (Some (TCPListener 6)).

End Sim.


(* ================================================================== *)
(** ** Properties *)

(** Unfold the plumbing of a computation. *)
Ltac run :=
  repeat progress
    (cbv beta delta [bind call emit ret log_Printf log_Println log_Fatalf];
     cbn [app fst snd gs_Addr gs_PID gs_Server gs_Listener set_Listener
          set_PID ctx_Deadline]).

(** Case analysis on the next answer of the environment. *)
Ltac answer :=
  match goal with
  | |- context [match ?x with _ => _ end] =>
      lazymatch x with
      | context [match _ with _ => _ end] => fail
      | _ => destruct x eqn:?
      end
  end.

Ltac assoc := repeat rewrite <- app_assoc; cbn [app].

Lemma count_app p (a b : list Event) :
  count p (a ++ b) = (count p a + count p b)%nat.
Proof. unfold count. now rewrite filter_app, length_app. Qed.

Section Facts.

Variable P : Platform.

(** [shutDown] performs the same four effects on every run. *)
Lemma shutDown_run srv h :
  let now := time_Now P h in
  let ctx := mkContext (now + DefaultAwaitTimeout) in
  let line := EvLog (Printf "[INFO] Digesting requests will be timed out at %v"
                            [ATime (now + DefaultAwaitTimeout)
                                   "2006-01-02 15:04:05"]) in
  let res := server_Shutdown P (h ++ [EvNow now; line]) (gs_Server srv) ctx in
  shutDown P srv h =
    (res, [EvNow now; line; EvShutdown (gs_Server srv) ctx res; EvCancel ctx]).
Proof.
  unfold shutDown. run. assoc. reflexivity.
Qed.

(** A signal that is none of the five hooks falls to the [default] case. *)
Lemma unhooked_tests sig :
  ~ In sig sigHooks ->
  (sig =? syscall_SIGHUP) = false /\
  (sig =? syscall_SIGUSR1) = false /\
  (sig =? syscall_SIGUSR2) = false /\
  (sig =? syscall_SIGINT) = false /\
  (sig =? syscall_SIGTERM) = false.
Proof.
  unfold sigHooks. cbn [In]. intros H.
  repeat split; apply Z.eqb_neq; intros ->; apply H; tauto.
Qed.

End Facts.

(** C5 (as the code has it).  Graceful shutdown takes no timeout: on every
    run the timeout is the constant of 5 seconds, that is the specified
    behaviour without an override.  It reads the clock, sets the deadline at
    now plus 5 seconds, logs that deadline, asks the serving engine to shut
    down under that deadline, releases the context and returns the engine's
    answer. *)
Theorem C5_shutDown_uses_the_fixed_timeout (P : Platform) srv h :
  let now := time_Now P h in
  let deadline := now + 5 * 1000000000 in
  let ctx := mkContext deadline in
  let line := EvLog (Printf "[INFO] Digesting requests will be timed out at %v"
                            [ATime deadline "2006-01-02 15:04:05"]) in
  let res := server_Shutdown P (h ++ [EvNow now; line]) (gs_Server srv) ctx in
  DefaultAwaitTimeout = 5 * time_Second /\
  shutDown P srv h =
    (res, [EvNow now; line; EvShutdown (gs_Server srv) ctx res; EvCancel ctx]) /\
  shutDown P srv h = spec_shutDown P srv None h /\
  GracefulShutDown P (gs_Server srv) h = shutDown P srv h.
Proof.
  cbv zeta. split; [reflexivity|]. split; [|split].
  - apply shutDown_run.
  - reflexivity.
  - reflexivity.
Qed.

(** C5 as stated fails: a caller that wants a timeout of one second has no
    way to pass it; the deadline stays five seconds away. *)
Lemma C5_no_override_counterexample :
  shutDown (Sim.platform Sim.calm) Sim.master [] <>
  spec_shutDown (Sim.platform Sim.calm) Sim.master (Some time_Second) [].
Proof. vm_compute. discriminate. Qed.

Section ForkFacts.

Variable P : Platform.

(** What a run of [forkChild] can contain: no shutdown of the serving
    engine, at most one started process, and exactly one when it returns
    nil. *)
Lemma forkChild_events srv killMaster mpid h :
  let (r, evs) := forkChild P srv killMaster mpid h in
  count is_Shutdown evs = 0%nat /\
  (count is_StartProcess evs <= 1)%nat /\
  (r = None -> count is_StartProcess evs = 1%nat).
Proof.
  unfold forkChild, createListenerFile.
  destruct (gs_Listener srv) as [[s|s|s]|]; run;
    repeat (answer; run);
    cbn; repeat split; try lia; try discriminate; try reflexivity.
Qed.

End ForkFacts.

Section LoopFacts.

Variable P : Platform.
Variables (srv : GracefulServer) (killMaster : bool) (mpid : Z).

(** One turn of the loop. *)
Lemma loop_step sig rest h :
  handleSignals_loop P srv killMaster mpid (sig :: rest) h =
    (let (c, evs) := handleSignals_body P srv killMaster mpid sig h in
     match c with
     | Continue =>
         let (o, more) :=
           handleSignals_loop P srv killMaster mpid rest (h ++ evs) in
         (o, evs ++ more)
     | Return e => (Returned e, evs)
     end).
Proof.
  cbn [handleSignals_loop]. unfold bind at 1.
  destruct (handleSignals_body P srv killMaster mpid sig h) as [[|e] evs].
  - reflexivity.
  - unfold ret. now rewrite app_nil_r.
Qed.

(** The hangup case of the switch. *)
Lemma hangup_body h :
  handleSignals_body P srv killMaster mpid syscall_SIGHUP h =
    (let pre := received mpid syscall_SIGHUP in
     let (err, fk) := forkChild P srv killMaster mpid (h ++ pre) in
     match err with
     | Some e => (Continue, pre ++ fk ++ [fork_failure e])
     | None =>
         let (res, sd) := shutDown P srv (h ++ pre ++ fk) in
         (Return res, pre ++ fk ++ sd)
     end).
Proof.
  unfold handleSignals_body. rewrite Z.eqb_refl. unfold received. run. assoc.
  destruct (forkChild P srv killMaster mpid _) as [[e|] fk]; run.
  - reflexivity.
  - assoc.
    destruct (shutDown P srv _) as [res sd]. now rewrite app_nil_r.
Qed.

(** The case of the two user signals. *)
Lemma user_body sig h :
  sig = syscall_SIGUSR1 \/ sig = syscall_SIGUSR2 ->
  handleSignals_body P srv killMaster mpid sig h =
    (let pre := received mpid sig in
     let (err, fk) := forkChild P srv killMaster mpid (h ++ pre) in
     (Continue,
      pre ++ fk ++ match err with Some e => [fork_failure e] | None => [] end)).
Proof.
  intros [-> | ->]; unfold handleSignals_body; cbn [Z.eqb syscall_SIGHUP
    syscall_SIGUSR1 syscall_SIGUSR2 Pos.eqb orb]; unfold received; run; assoc;
    destruct (forkChild P srv killMaster mpid _) as [[e|] fk]; run; reflexivity.
Qed.

End LoopFacts.

(** C2.  On hangup: when the fork fails the error is logged and the loop
    goes on with the signals that follow (still Running); when the fork
    succeeds the graceful shutdown is attempted once and the loop is left
    with whatever the shutdown answered, the signals that follow unread. *)
Theorem C2_hangup_forks_then_shuts_down
        (P : Platform) srv killMaster mpid rest h :
  let pre := received mpid syscall_SIGHUP in
  (forall e fk,
      forkChild P srv killMaster mpid (h ++ pre) = (Some e, fk) ->
      let evs := pre ++ fk ++ [fork_failure e] in
      handleSignals_body P srv killMaster mpid syscall_SIGHUP h
        = (Continue, evs) /\
      handleSignals_loop P srv killMaster mpid (syscall_SIGHUP :: rest) h =
        (let (o, more) :=
           handleSignals_loop P srv killMaster mpid rest (h ++ evs) in
         (o, evs ++ more))) /\
  (forall fk,
      forkChild P srv killMaster mpid (h ++ pre) = (None, fk) ->
      forall res sd,
        shutDown P srv (h ++ pre ++ fk) = (res, sd) ->
        count is_Shutdown sd = 1%nat /\
        handleSignals_loop P srv killMaster mpid (syscall_SIGHUP :: rest) h =
          (Returned res, pre ++ fk ++ sd)).
Proof.
  intros pre. split.
  - intros e fk Hf evs.
    assert (Hb : handleSignals_body P srv killMaster mpid syscall_SIGHUP h
                 = (Continue, evs)).
    { rewrite hangup_body. cbv zeta. fold pre. now rewrite Hf. }
    split; [exact Hb|]. now rewrite loop_step, Hb.
  - intros fk Hf res sd Hs. split.
    + rewrite shutDown_run in Hs. inversion Hs. reflexivity.
    + rewrite loop_step, hangup_body. cbv zeta. fold pre. now rewrite Hf, Hs.
Qed.

Lemma C2_hangup_witness :
  (* the fork fails: the loop waits for the next signal *)
  fst (handleSignals_loop (Sim.platform Sim.fork_failing) Sim.master false 52233
                          [syscall_SIGHUP] []) = Blocked /\
  (* the fork succeeds: the loop is left although the engine did not drain *)
  fst (handleSignals_loop (Sim.platform Sim.stuck) Sim.master false 52233
                          [syscall_SIGHUP; syscall_SIGUSR1] [])
    = Returned (Some (runtime_error "context deadline exceeded")).
Proof.
  split.
  - edestruct (proj1 (C2_hangup_forks_then_shuts_down
                        (Sim.platform Sim.fork_failing) Sim.master false 52233
                        [] [])) as [_ H].
    + vm_compute. reflexivity.
    + rewrite H. vm_compute. reflexivity.
  - edestruct (proj2 (C2_hangup_forks_then_shuts_down
                        (Sim.platform Sim.stuck) Sim.master false 52233
                        [syscall_SIGUSR1] [])) as [_ H].
    + vm_compute. reflexivity.
    + vm_compute. reflexivity.
    + rewrite H. vm_compute. reflexivity.
Defined.

(** C1 (as the code has it).  On hangup, when the fork fails, the error is
    logged and the iteration ends there: the loop goes on and no shutdown of
    the serving engine is attempted. *)
Theorem C1_hangup_fork_failure_skips_shutdown
        (P : Platform) srv killMaster mpid h e fk :
  forkChild P srv killMaster mpid (h ++ received mpid syscall_SIGHUP)
    = (Some e, fk) ->
  let evs := received mpid syscall_SIGHUP ++ fk ++ [fork_failure e] in
  handleSignals_body P srv killMaster mpid syscall_SIGHUP h = (Continue, evs) /\
  count is_Shutdown evs = 0%nat.
Proof.
  intros Hf evs. split.
  - rewrite hangup_body. cbv zeta. now rewrite Hf.
  - pose proof (forkChild_events P srv killMaster mpid
                  (h ++ received mpid syscall_SIGHUP)) as F.
    rewrite Hf in F. destruct F as [F _].
    unfold evs. rewrite !count_app, F. reflexivity.
Qed.

Lemma C1_hangup_fork_failure_witness :
  exists evs,
    handleSignals_body (Sim.platform Sim.fork_failing) Sim.master false 52233
                       syscall_SIGHUP [] = (Continue, evs) /\
    count is_Shutdown evs = 0%nat.
Proof.
  eexists.
  eapply (C1_hangup_fork_failure_skips_shutdown
            (Sim.platform Sim.fork_failing) Sim.master false 52233 []).
  vm_compute. reflexivity.
Defined.

(** C1 as stated fails: the fork of this hangup fails (the process cannot be
    started) and the loop then waits for the next signal, the serving engine
    never asked to shut down. *)
Lemma C1_counterexample :
  fst (forkChild (Sim.platform Sim.fork_failing) Sim.master false 52233
                 (received 52233 syscall_SIGHUP)) <> None /\
  handleSignals_loop (Sim.platform Sim.fork_failing) Sim.master false 52233
                     [syscall_SIGHUP] [] =
    (Blocked,
     received 52233 syscall_SIGHUP ++
     snd (forkChild (Sim.platform Sim.fork_failing) Sim.master false 52233
                    (received 52233 syscall_SIGHUP)) ++
     [fork_failure (runtime_error "fork/exec: resource temporarily unavailable")])
  /\
  count is_Shutdown
        (snd (handleSignals_loop (Sim.platform Sim.fork_failing) Sim.master
                                 false 52233 [syscall_SIGHUP] [])) = 0%nat.
Proof. vm_compute. repeat split. discriminate. Qed.

(** Membership in an explicit list of events, settled by the constructors. *)
Ltac sift :=
  repeat match goal with
         | H : In _ (_ :: _) |- _ => cbn [In] in H
         | H : In _ [] |- _ => destruct H
         | H : _ \/ _ |- _ => destruct H
         | H : False |- _ => destruct H
         | H : @eq Event _ _ |- _ =>
             first [discriminate H | injection H as ?; subst]
         end.

(** C6.  With the kill-master flag set, when the child process has been
    started and sending the terminate signal to the master's own process
    identifier fails, [forkChild] returns an error, the one built from that
    failure. *)
Theorem C6_failed_self_terminate_fails_the_fork
        (P : Platform) srv mpid h r evs exec argv attr p e :
  forkChild P srv true mpid h = (r, evs) ->
  In (EvStartProcess exec argv attr (inl p)) evs ->
  In (EvKill mpid syscall_SIGTERM (Some e)) evs ->
  r = Some (errors_New "unable to kill the master (%d): %v"
                       [AInt mpid; AErr e]).
Proof.
  unfold forkChild, createListenerFile.
  destruct (gs_Listener srv) as [[s|s|s]|]; run;
    repeat (answer; run);
    intros H; inversion H; subst; clear H; intros Hs Hk; sift;
    congruence.
Qed.

Lemma C6_failed_self_terminate_witness :
  fst (forkChild (Sim.platform Sim.kill_failing) Sim.master true 52233 []) =
  Some (errors_New "unable to kill the master (%d): %v"
                   [AInt 52233; AErr (runtime_error "operation not permitted")]).
Proof.
  eapply (C6_failed_self_terminate_fails_the_fork
            (Sim.platform Sim.kill_failing) Sim.master 52233 []).
  - apply surjective_pairing.
  - vm_compute. do 3 right. left. reflexivity.
  - vm_compute. do 5 right. left. reflexivity.
Defined.

Section UserSignals.

Variable P : Platform.
Variables (srv : GracefulServer) (killMaster : bool) (mpid : Z).
Variable sig : Signal.
Hypothesis user : sig = syscall_SIGUSR1 \/ sig = syscall_SIGUSR2.

Lemma user_body_continues h :
  fst (handleSignals_body P srv killMaster mpid sig h) = Continue.
Proof.
  rewrite (user_body P srv killMaster mpid sig h user). cbv zeta.
  now destruct (forkChild P srv killMaster mpid _).
Qed.

Lemma user_body_counts h :
  let evs := snd (handleSignals_body P srv killMaster mpid sig h) in
  count is_Shutdown evs = 0%nat /\ (count is_StartProcess evs <= 1)%nat.
Proof.
  rewrite (user_body P srv killMaster mpid sig h user). cbv zeta.
  pose proof (forkChild_events P srv killMaster mpid (h ++ received mpid sig)) as F.
  destruct (forkChild P srv killMaster mpid _) as [r fk].
  destruct F as (F1 & F2 & _). cbn [snd].
  rewrite !count_app, F1.
  destruct r; cbn; split; lia.
Qed.

(** After [n] deliveries the loop is where it was, [n] iterations later. *)
Lemma user_deliveries n : forall rest h,
  handleSignals_loop P srv killMaster mpid (repeat sig n ++ rest) h =
    (let evs := deliveries P srv killMaster mpid sig n h in
     let (o, more) :=
       handleSignals_loop P srv killMaster mpid rest (h ++ evs) in
     (o, evs ++ more)).
Proof.
  induction n as [|n IH]; intros rest h.
  - cbn [repeat deliveries app]. cbv zeta. rewrite app_nil_r.
    now destruct (handleSignals_loop P srv killMaster mpid rest h).
  - replace (repeat sig (S n) ++ rest) with (repeat sig n ++ sig :: rest).
    2:{ cbn [repeat]. rewrite repeat_cons, <- app_assoc. reflexivity. }
    rewrite IH. cbv zeta. cbn [deliveries].
    set (evs := deliveries P srv killMaster mpid sig n h).
    rewrite loop_step.
    pose proof (user_body_continues (h ++ evs)) as Hc.
    destruct (handleSignals_body P srv killMaster mpid sig (h ++ evs))
      as [c one].
    cbn [fst] in Hc. subst c. cbn [snd].
    rewrite <- (app_assoc h evs one).
    destruct (handleSignals_loop P srv killMaster mpid rest (h ++ evs ++ one))
      as [o more].
    now rewrite app_assoc.
Qed.

Lemma user_deliveries_counts n h :
  let evs := deliveries P srv killMaster mpid sig n h in
  count is_Shutdown evs = 0%nat /\ (count is_StartProcess evs <= n)%nat.
Proof.
  induction n as [|n [IH1 IH2]]; cbn [deliveries]; cbv zeta.
  - split; [reflexivity | apply le_n].
  - destruct (user_body_counts
                (h ++ deliveries P srv killMaster mpid sig n h)) as [B1 B2].
    rewrite !count_app, IH1, B1. split; [reflexivity | lia].
Qed.

End UserSignals.

(** When no fork fails, every delivery of a user signal starts one process. *)
Lemma user_deliveries_all_started
      (P : Platform) srv killMaster mpid sig n h :
  sig = syscall_SIGUSR1 \/ sig = syscall_SIGUSR2 ->
  (forall h', fst (forkChild P srv killMaster mpid h') = None) ->
  count is_StartProcess (deliveries P srv killMaster mpid sig n h) = n.
Proof.
  intros user ok. induction n as [|n IH]; cbn [deliveries]; [reflexivity|].
  rewrite count_app, IH.
  rewrite (user_body P srv killMaster mpid sig _ user). cbv zeta.
  set (h1 := (h ++ deliveries P srv killMaster mpid sig n h) ++ received mpid sig).
  pose proof (forkChild_events P srv killMaster mpid h1) as F.
  pose proof (ok h1) as O.
  destruct (forkChild P srv killMaster mpid h1) as [r fk].
  cbn [fst] in O. subst r. destruct F as (_ & _ & F). cbn [snd].
  rewrite !count_app, (F eq_refl). cbn. lia.
Qed.

(** C7.  A delivery of user-signal-1 or user-signal-2 runs [forkChild] once
    and the loop goes on, whether the fork succeeded or failed: the iteration
    is the receive, its log line, the events of one run of [forkChild] and,
    when it failed, the line that logs the error; it starts at most one
    process (exactly one when the fork succeeded) and never shuts the engine
    down.  Delivered [n] times in a row with no other signal in between, each
    delivery adds one such iteration and the loop then goes on with the
    signals that follow. *)
Theorem C7_user_signals_fork_and_keep_running
        (P : Platform) srv killMaster mpid sig h :
  sig = syscall_SIGUSR1 \/ sig = syscall_SIGUSR2 ->
  (let pre := received mpid sig in
   let fork := forkChild P srv killMaster mpid (h ++ pre) in
   let evs := pre ++ snd fork ++
              match fst fork with Some e => [fork_failure e] | None => [] end in
   handleSignals_body P srv killMaster mpid sig h = (Continue, evs) /\
   count is_Shutdown evs = 0%nat /\
   (count is_StartProcess evs <= 1)%nat /\
   (fst fork = None -> count is_StartProcess evs = 1%nat)) /\
  (forall n rest,
      let evs := deliveries P srv killMaster mpid sig n h in
      handleSignals_loop P srv killMaster mpid (repeat sig n ++ rest) h =
        (let (o, more) :=
           handleSignals_loop P srv killMaster mpid rest (h ++ evs) in
         (o, evs ++ more)) /\
      deliveries P srv killMaster mpid sig (S n) h =
        evs ++ snd (handleSignals_body P srv killMaster mpid sig (h ++ evs)) /\
      count is_Shutdown evs = 0%nat /\
      (count is_StartProcess evs <= n)%nat /\
      ((forall h', fst (forkChild P srv killMaster mpid h') = None) ->
       count is_StartProcess evs = n)).
Proof.
  intros user. split.
  - cbv zeta.
    pose proof (user_body P srv killMaster mpid sig h user) as B.
    pose proof (user_body_counts P srv killMaster mpid sig user h) as C.
    pose proof (forkChild_events P srv killMaster mpid (h ++ received mpid sig))
      as F.
    cbv zeta in B, C. rewrite B in C.
    destruct (forkChild P srv killMaster mpid (h ++ received mpid sig))
      as [r fk].
    cbn [fst snd] in *. destruct C as [C1 C2]. destruct F as (_ & _ & F).
    repeat split; try assumption.
    intros ->. rewrite !count_app, (F eq_refl). cbn. lia.
  - intros n rest evs. split; [|split; [|split; [|split]]].
    + apply (user_deliveries P srv killMaster mpid sig user).
    + reflexivity.
    + apply (user_deliveries_counts P srv killMaster mpid sig user).
    + apply (user_deliveries_counts P srv killMaster mpid sig user).
    + apply user_deliveries_all_started, user.
Qed.

Lemma C7_user_signals_witness :
  (* three deliveries of user-signal-1: three children, the master waits on *)
  fst (handleSignals_loop (Sim.platform Sim.calm) Sim.master false 52233
                          (repeat syscall_SIGUSR1 3 ++ []) []) = Blocked /\
  count is_StartProcess
        (deliveries (Sim.platform Sim.calm) Sim.master false 52233
                    syscall_SIGUSR1 3 []) = 3%nat /\
  (* a failed fork: the master waits on all the same *)
  fst (handleSignals_body (Sim.platform Sim.fork_failing) Sim.master false 52233
                          syscall_SIGUSR2 []) = Continue.
Proof.
  destruct (C7_user_signals_fork_and_keep_running
              (Sim.platform Sim.calm) Sim.master false 52233 syscall_SIGUSR1 []
              (or_introl eq_refl)) as [_ H].
  destruct (H 3%nat []) as (H1 & _ & _ & _ & H5).
  destruct (C7_user_signals_fork_and_keep_running
              (Sim.platform Sim.fork_failing) Sim.master false 52233
              syscall_SIGUSR2 [] (or_intror eq_refl)) as [[H0 _] _].
  split; [|split].
  - rewrite H1. vm_compute. reflexivity.
  - apply H5. intros h'. reflexivity.
  - rewrite H0. reflexivity.
Defined.

Section ListenerFacts.

Variable P : Platform.

(** [createListener] assigns the listener and nothing else, and it does not
    start serving. *)
Lemma createListener_keeps srv h :
  let '((_, srv'), evs) := createListener P srv h in
  gs_Server srv' = gs_Server srv /\
  gs_Addr srv' = gs_Addr srv /\
  gs_PID srv' = gs_PID srv /\
  count is_ServeTLS evs = 0%nat /\
  count is_Notify evs = 0%nat.
Proof.
  unfold createListener, importListener, newListener. run.
  repeat (answer; run);
    repeat match goal with
           | H : (_, _) = (_, _) |- _ => inversion H; subst; clear H
           end;
    cbn; repeat split; reflexivity.
Qed.

End ListenerFacts.

(** C9.  [GracefulServeTLS] closes the caller's server right after it has
    launched the goroutine that serves TLS on it, and before it enters the
    signal loop: once the listener is acquired, the run is the acquisition,
    the launch, the call of [Close] on the same server, then the start-up
    line and the handling of signals.  (When no listener can be acquired the
    process exits before any of this.) *)
Theorem C9_GracefulServeTLS_closes_the_server_after_launch
        (P : Platform) server killMaster certFile keyFile sigs h :
  let srv0 := mkGracefulServer (server_Addr server) 0 server None in
  (forall srv pre,
      createListener P srv0 h = ((None, srv), pre) ->
      let launch := EvGoServeTLS server (gs_Listener srv) certFile keyFile in
      let close :=
        EvServerClose server (server_Close P (h ++ pre ++ [launch]) server) in
      let pid := syscall_Getpid P (h ++ pre ++ [launch; close]) in
      let started :=
        EvLog (Printf "[INFO] The server has started (%d)." [AInt pid]) in
      let head := pre ++ [launch; close; EvGetpid pid; started] in
      count is_ServeTLS pre = 0%nat /\
      count is_Notify pre = 0%nat /\
      exists tail,
        snd (GracefulServeTLS P server killMaster certFile keyFile sigs h) =
          head ++
          snd (handleSignals P (set_PID srv pid) killMaster pid sigs (h ++ head))
          ++ tail) /\
  (forall e srv pre,
      createListener P srv0 h = ((Some e, srv), pre) ->
      GracefulServeTLS P server killMaster certFile keyFile sigs h =
        (Exited 1,
         pre ++ [EvLog (Printf "[ERR] Unable to create a listener: %v." [AErr e]);
                 EvExit 1])).
Proof.
  intros srv0. split.
  - intros srv pre Hc.
    pose proof (createListener_keeps P srv0 h) as K. rewrite Hc in K.
    destruct K as (Ks & _ & _ & K1 & K2). cbn [gs_Server srv0] in Ks.
    cbv zeta. split; [exact K1|]. split; [exact K2|].
    unfold GracefulServeTLS. fold srv0. unfold bind at 1. rewrite Hc.
    run. rewrite Ks. assoc.
    match goal with
    | |- context [handleSignals P ?s ?k ?m ?l ?t] =>
        destruct (handleSignals P s k m l t) as [o evs]
    end.
    destruct o as [[e|]| |]; run; eexists; assoc; reflexivity.
  - intros e srv pre Hc.
    unfold GracefulServeTLS. fold srv0. unfold bind at 1. rewrite Hc.
    run. reflexivity.
Qed.

Lemma C9_GracefulServeTLS_witness :
  exists tail,
    snd (GracefulServeTLS (Sim.platform Sim.calm) Sim.server false
                          "cert.pem" "key.pem" [syscall_SIGTERM] []) =
      [EvGetenv DefaultEnvVar "";
       EvListen "tcp" "localhost:8080" (inl (TCPListener 6));
       EvLog (Printf "[INFO] Created a new listener on %s."
                     [AStr "localhost:8080"]);
       EvGoServeTLS Sim.server (Some (TCPListener 6)) "cert.pem" "key.pem";
       EvServerClose Sim.server None;
       EvGetpid 52233;
       EvLog (Printf "[INFO] The server has started (%d)." [AInt 52233]);
       EvNotify sigHooks] ++ tail.
Proof.
  edestruct (proj1 (C9_GracefulServeTLS_closes_the_server_after_launch
                      (Sim.platform Sim.calm) Sim.server false
                      "cert.pem" "key.pem" [syscall_SIGTERM] []))
    as (_ & _ & tail & H).
  - vm_compute. reflexivity.
  - rewrite H. eexists. vm_compute. reflexivity.
Defined.

(** C3 (as the code has it).  With a payload in the environment: when it
    parses, its address is the requested one and the listener can be rebuilt
    from the descriptor slot, acquisition returns that listener, and
    [net.Listen] is never called; in every other case (malformed payload,
    other address, no file at the slot, file that is no listener) it logs the
    failure once and then calls [net.Listen] exactly once. *)
Theorem C3_listener_acquisition (P : Platform) srv h :
  let env := os_Getenv P h DefaultEnvVar in
  let h1 := h ++ [EvGetenv DefaultEnvVar env] in
  env <> "" ->
  (forall l,
      reconstructs P srv env h1 l ->
      fst (createListener P srv h) = (None, set_Listener srv (Some l)) /\
      count is_Listen (snd (createListener P srv h)) = 0%nat /\
      count is_import_failure (snd (createListener P srv h)) = 0%nat) /\
  ((forall l, ~ reconstructs P srv env h1 l) ->
   count is_Listen (snd (createListener P srv h)) = 1%nat /\
   count is_import_failure (snd (createListener P srv h)) = 1%nat /\
   exists e pre res post,
     snd (createListener P srv h) =
       pre ++ import_failure e
           :: EvListen DefaultNetwork (gs_Addr srv) res :: post).
Proof.
  intros env h1 Hne.
  assert (Hnb : negb (String.eqb env "") = true).
  { apply negb_true_iff, String.eqb_neq, Hne. }
  unfold reconstructs.
  unfold createListener, importListener, newListener. run.
  fold env. rewrite Hnb. fold h1. split.
  - intros l (fl & f & Hu & Ha & Hf & Hl).
    rewrite Hu. apply String.eqb_eq in Ha. rewrite Ha. cbn [negb]. run.
    rewrite Hf. run. rewrite Hl. run. repeat split.
  - intros Hno.
    destruct (json_Unmarshal P env) as [fl|e0] eqn:Hu.
    2:{ run. answer; run; cbn; repeat split;
        eexists _, [_], _, _; reflexivity. }
    destruct (String.eqb (Addr fl) (gs_Addr srv)) eqn:Ha; cbn [negb].
    2:{ run. answer; run; cbn; repeat split;
        eexists _, [_], _, _; reflexivity. }
    run. apply String.eqb_eq in Ha.
    destruct (os_NewFile P h1 (uintptr (FD fl)) (Name fl)) as [f|] eqn:Hf.
    2:{ run. answer; run; cbn; repeat split;
        eexists _, [_; _], _, _; reflexivity. }
    run.
    destruct (net_FileListener P
                (h1 ++ [EvNewFile (uintptr (FD fl)) (Name fl) (Some f)]) f)
      as [l|e1] eqn:Hl.
    { exfalso. apply (Hno l). exists fl, f. repeat split; assumption. }
    run. answer; run; cbn; repeat split;
      eexists _, [_; _; _; _], _, _; reflexivity.
Qed.

Lemma C3_listener_acquisition_witness :
  let srv := mkGracefulServer "localhost:8080" 0 Sim.server None in
  (* a child of a master listening on the same address *)
  fst (createListener
         (Sim.platform (Sim.inherited "localhost:8080" "tcp:127.0.0.1:8080->" 3))
         srv [])
    = (None, set_Listener srv (Some (TCPListener 3))) /\
  (* a payload that is no descriptor *)
  count is_Listen
        (snd (createListener
                (Sim.platform (Sim.with_payload Sim.calm "{addr}")) srv []))
    = 1%nat.
Proof.
  intros srv. split.
  - refine (proj1 (proj1 (C3_listener_acquisition
             (Sim.platform
                (Sim.inherited "localhost:8080" "tcp:127.0.0.1:8080->" 3))
             srv [] _) (TCPListener 3) _)).
    + vm_compute. discriminate.
    + exists (mkDescriptor "localhost:8080" 3 "tcp:127.0.0.1:8080->"),
             (mkFile 3 "tcp:127.0.0.1:8080->").
      vm_compute. repeat split.
  - refine (proj1 (proj2 (C3_listener_acquisition
             (Sim.platform (Sim.with_payload Sim.calm "{addr}")) srv [] _) _)).
    + vm_compute. discriminate.
    + intros l (fl & f & Hu & _). vm_compute in Hu. discriminate Hu.
Defined.

(** C3 as stated fails: this payload parses and carries the requested
    address, but descriptor 3 of the process is no listening socket; the
    listener is then made by [net.Listen]. *)
Lemma C3_counterexample :
  let d := mkDescriptor "localhost:8080" 3 "tcp:127.0.0.1:8080->" in
  let P := Sim.platform (Sim.with_payload Sim.calm (Sim.encode d)) in
  let srv := mkGracefulServer "localhost:8080" 0 Sim.server None in
  json_Unmarshal P (os_Getenv P [] DefaultEnvVar) = inl d /\
  Addr d = gs_Addr srv /\
  count is_Listen (snd (createListener P srv [])) = 1%nat /\
  fst (createListener P srv []) = (None, set_Listener srv (Some (TCPListener 6))).
Proof. vm_compute. repeat split. Qed.

Lemma uintptr_3 : uintptr 3 = 3.
Proof. reflexivity. Qed.

(** C4.  Whenever [forkChild] starts a process, the server's listener
    [l] is a TCP or a unix listener, the file [f] is the one that [File()] of
    that listener answered in this run, and [f] is the fourth of the files
    handed to the child, after the three standard streams, that is the file
    of index 3; the last entry of the child's environment is
    [OCTOPUS_LISTENER=] followed by the JSON text of the descriptor made of
    the server's address, the number 3 and the name of [f].  In a process
    whose address is the same, where that text is read back as that
    descriptor, [importListener] asks for the file at descriptor 3 under
    that name, and when the slot gives a file and the file a listener, it
    returns nil with that listener installed. *)
Theorem C4_descriptor_round_trip
        (P : Platform) srv killMaster mpid h exec argv attr p :
  In (EvStartProcess exec argv attr p) (snd (forkChild P srv killMaster mpid h)) ->
  exists l f env environ,
    let d := mkDescriptor (gs_Addr srv) 3 (file_Name f) in
    gs_Listener srv = Some l /\
    (exists s, l = TCPListener s \/ l = UnixListener s) /\
    listener_File P h l = inl f /\
    In (EvListenerFile l (inl f)) (snd (forkChild P srv killMaster mpid h)) /\
    Files attr = [os_Stdin; os_Stdout; os_Stderr; f] /\
    nth_error (Files attr) 3 = Some f /\
    json_Marshal P d = inl env /\
    Env attr = environ ++ [(DefaultEnvVar ++ "=" ++ env)%string] /\
    forall child h',
      gs_Addr child = gs_Addr srv ->
      json_Unmarshal P env = inl d ->
      let slot := os_NewFile P h' 3 (file_Name f) in
      (exists res more,
          importListener P child env h' =
            (res, EvNewFile 3 (file_Name f) slot :: more)) /\
      (forall f' l',
          slot = Some f' ->
          net_FileListener P (h' ++ [EvNewFile 3 (file_Name f) (Some f')]) f'
            = inl l' ->
          importListener P child env h' =
            ((None, set_Listener child (Some l')),
             [EvNewFile 3 (file_Name f) (Some f');
              EvFileListener f' (inl l');
              EvFileClose f'])).
Proof.
  unfold forkChild, createListenerFile.
  destruct (gs_Listener srv) as [[s|s|s]|]; run;
    repeat (answer; run); cbn [snd]; intros Hin; sift;
    match goal with
    | Hl : listener_File P h ?l = inl ?f,
      Hm : json_Marshal P (mkDescriptor _ _ (file_Name ?f)) = inl ?env |- _ =>
        exists l, f, env; eexists; cbv zeta;
        split; [reflexivity|];
        split; [exists s; tauto|];
        split; [exact Hl|];
        split; [cbn [In]; left; reflexivity|];
        split; [reflexivity|]; split; [reflexivity|];
        split; [exact Hm|]; split; [reflexivity|]
    end;
    intros child h' Ha Hu; unfold importListener; rewrite Hu;
    cbn [Addr FD Name]; rewrite Ha, String.eqb_refl; cbn [negb];
    rewrite uintptr_3; run;
    (split;
     [ destruct (os_NewFile P h' 3 _) as [f'|]; run;
       [ destruct (net_FileListener P _ f'); run|]; eexists _, _; reflexivity
     | intros f' l' Hf Hl'; rewrite Hf; run; rewrite Hl'; run; reflexivity ]).
Qed.

Lemma C4_descriptor_round_trip_witness :
  let P := Sim.platform
             (Sim.inherited "localhost:8080" "tcp:127.0.0.1:8080->" 3) in
  let f := mkFile 7 "tcp:127.0.0.1:8080->" in
  let d := mkDescriptor "localhost:8080" 3 "tcp:127.0.0.1:8080->" in
  let attr :=
    mkProcAttr "/srv/bin"
               ["HOME=/root"; (DefaultEnvVar ++ "=" ++ Sim.encode d)%string]
               [os_Stdin; os_Stdout; os_Stderr; f] SysProcAttr_empty in
  let child := mkGracefulServer "localhost:8080" 0 Sim.server None in
  In (EvStartProcess "/srv/bin/server" ["/srv/bin/server"] attr
                     (inl (mkProcess 55345)))
     (snd (forkChild P Sim.master false 55344 [])) /\
  In (EvListenerFile (TCPListener 6) (inl f))
     (snd (forkChild P Sim.master false 55344 [])) /\
  importListener P child (Sim.encode d) [] =
    ((None, set_Listener child (Some (TCPListener 3))),
     [EvNewFile 3 "tcp:127.0.0.1:8080->" (Some (mkFile 3 "tcp:127.0.0.1:8080->"));
      EvFileListener (mkFile 3 "tcp:127.0.0.1:8080->") (inl (TCPListener 3));
      EvFileClose (mkFile 3 "tcp:127.0.0.1:8080->")]).
Proof.
  intros P f d attr child.
  assert (Hin : In (EvStartProcess "/srv/bin/server" ["/srv/bin/server"] attr
                                   (inl (mkProcess 55345)))
                   (snd (forkChild P Sim.master false 55344 []))).
  { vm_compute. do 3 right. left. reflexivity. }
  split; [exact Hin|].
  destruct (C4_descriptor_round_trip P Sim.master false 55344 [] _ _ _ _ Hin)
    as (l0 & f0 & env & environ & HL & _ & _ & HE & HF & _ & Hm & _ & Hchild).
  cbn [gs_Listener Sim.master] in HL. injection HL as <-.
  cbn [Files attr] in HF. injection HF as <-.
  split; [exact HE|].
  cbn [json_Marshal P Sim.platform] in Hm. injection Hm as <-.
  destruct (Hchild child [] eq_refl) as [_ H2].
  - vm_compute. reflexivity.
  - apply (H2 (mkFile 3 "tcp:127.0.0.1:8080->") (TCPListener 3));
      vm_compute; reflexivity.
Defined.

(** C10.  When [GracefulServe] returns, it returns a nil server together with
    a nil error; and it does return, with that pair, as soon as a listener
    was acquired and [handleSignals] returned nil. *)
Theorem C10_GracefulServe_returns_nil_nil
        (P : Platform) server killMaster sigs h :
  let srv0 := mkGracefulServer (server_Addr server) 0 server None in
  (forall r evs,
      GracefulServe P server killMaster sigs h = (Returned r, evs) ->
      r = (None, None)) /\
  (forall srv pre evs,
      createListener P srv0 h = ((None, srv), pre) ->
      let launch := EvGoServe server (gs_Listener srv) in
      let pid := syscall_Getpid P (h ++ pre ++ [launch]) in
      let started :=
        EvLog (Printf "[INFO] The server has started (%d)." [AInt pid]) in
      let head := pre ++ [launch; EvGetpid pid; started] in
      handleSignals P (set_PID srv pid) killMaster pid sigs (h ++ head)
        = (Returned None, evs) ->
      GracefulServe P server killMaster sigs h =
        (Returned (None, None),
         head ++ evs ++ [EvLog (Printf "[INFO] The server has shut down." [])])).
Proof.
  intros srv0. split.
  - intros r evs. unfold GracefulServe. fold srv0. unfold bind at 1.
    destruct (createListener P srv0 h) as [[err srv] e1].
    destruct err as [e|]; [run; intros H; inversion H|].
    run.
    match goal with
    | |- context [handleSignals P ?s ?k ?m ?l ?t] =>
        destruct (handleSignals P s k m l t) as [o e2]
    end.
    destruct o as [[e|]| |]; intros H; inversion H; reflexivity.
  - intros srv pre evs Hc. cbv zeta. intros Hs.
    pose proof (createListener_keeps P srv0 h) as K. rewrite Hc in K.
    destruct K as (Ks & _). cbn [gs_Server srv0] in Ks.
    unfold GracefulServe. fold srv0. unfold bind at 1. rewrite Hc.
    run. rewrite Ks. assoc.
    repeat rewrite <- app_assoc in Hs. cbn [app] in Hs. rewrite Hs. run. assoc.
    reflexivity.
Qed.

Lemma C10_GracefulServe_witness :
  fst (GracefulServe (Sim.platform Sim.calm) Sim.server false
                     [syscall_SIGUSR1; syscall_SIGTERM] [])
    = Returned (None, None).
Proof.
  destruct (GracefulServe (Sim.platform Sim.calm) Sim.server false
                          [syscall_SIGUSR1; syscall_SIGTERM] [])
    as [o evs] eqn:E.
  destruct o as [r| |]; try (vm_compute in E; discriminate E).
  cbn [fst]. f_equal.
  exact (proj1 (C10_GracefulServe_returns_nil_nil
                  (Sim.platform Sim.calm) Sim.server false
                  [syscall_SIGUSR1; syscall_SIGTERM] []) r evs E).
Defined.

(* ================================================================== *)
(** ** Further properties of the package *)

(** What [createListener] returns and the listener it leaves. *)
Lemma createListener_result (P : Platform) srv h :
  let '((err, srv'), evs) := createListener P srv h in
  (count is_Listen evs <= 1)%nat /\
  match err with
  | None =>
      exists l,
        gs_Listener srv' = Some l /\
        (In (EvListen DefaultNetwork (gs_Addr srv) (inl l)) evs \/
         exists f, In (EvFileListener f (inl l)) evs)
  | Some e =>
      gs_Listener srv' = None /\
      In (EvListen DefaultNetwork (gs_Addr srv) (inr e)) evs
  end.
Proof.
  unfold createListener, importListener, newListener. run.
  repeat (answer; run);
    repeat match goal with
           | H : (_, _) = (_, _) |- _ => inversion H; subst; clear H
           end;
    (split; [cbn; lia|]);
    first [ split; [reflexivity | cbn [In]; tauto]
          | eexists; split; [reflexivity|]; cbn [In];
            first [ left; tauto | right; eexists; tauto ] ].
Qed.

(** X1.  [createListener] returns nil exactly when it leaves a listener in
    the server: on nil the listener is the one that [net.FileListener] or
    [net.Listen] answered in this run; on an error the listener is nil and
    the error is the one [net.Listen] answered (a failed import never
    surfaces).  [net.Listen] is called at most once. *)
Theorem X1_createListener_listener_iff_nil (P : Platform) srv h err srv' evs :
  createListener P srv h = ((err, srv'), evs) ->
  (count is_Listen evs <= 1)%nat /\
  (err = None <-> gs_Listener srv' <> None) /\
  (forall l,
      gs_Listener srv' = Some l ->
      In (EvListen DefaultNetwork (gs_Addr srv) (inl l)) evs \/
      exists f, In (EvFileListener f (inl l)) evs) /\
  (forall e,
      err = Some e ->
      In (EvListen DefaultNetwork (gs_Addr srv) (inr e)) evs).
Proof.
  intros H. pose proof (createListener_result P srv h) as R.
  rewrite H in R. destruct R as [C R]. split; [exact C|].
  destruct err as [e|].
  - destruct R as [N L]. rewrite N. repeat split.
    + intros E. discriminate E.
    + intros E. now contradiction E.
    + intros l E. discriminate E.
    + intros e' E. injection E as <-. exact L.
  - destruct R as (l & E & L). rewrite E. repeat split.
    + intros _ D. discriminate D.
    + intros l' E'. injection E' as <-. exact L.
    + intros e E'. discriminate E'.
Qed.

Lemma X1_createListener_listener_iff_nil_witness :
  In (EvListen DefaultNetwork "localhost:8080"
               (inr (runtime_error "address already in use")))
     (snd (createListener
             (Sim.platform
                (Sim.mkScenario "" (fun _ => false) false true true true true
                                0 52233))
             (mkGracefulServer "localhost:8080" 0 Sim.server None) [])).
Proof.
  assert (E : createListener
                (Sim.platform
                   (Sim.mkScenario "" (fun _ => false) false true true true
                                   true 0 52233))
                (mkGracefulServer "localhost:8080" 0 Sim.server None) [] =
              ((Some (runtime_error "address already in use"),
                mkGracefulServer "localhost:8080" 0 Sim.server None),
               [EvGetenv DefaultEnvVar "";
                EvListen DefaultNetwork "localhost:8080"
                         (inr (runtime_error "address already in use"))])).
  { vm_compute. reflexivity. }
  destruct (X1_createListener_listener_iff_nil _ _ _ _ _ _ E)
    as (_ & _ & _ & H).
  rewrite E. cbn [snd]. apply H. reflexivity.
Defined.

(** X2.  With no payload in the environment the import is not attempted: no
    descriptor is opened, no failure is logged, and [net.Listen] is called
    once, on the server's address; what it answers decides the result. *)
Theorem X2_createListener_without_payload (P : Platform) srv h :
  os_Getenv P h DefaultEnvVar = "" ->
  let evs := snd (createListener P srv h) in
  let res := net_Listen P (h ++ [EvGetenv DefaultEnvVar ""]) DefaultNetwork
                        (gs_Addr srv) in
  count is_NewFile evs = 0%nat /\
  count is_FileListener evs = 0%nat /\
  count is_import_failure evs = 0%nat /\
  count is_Listen evs = 1%nat /\
  In (EvListen DefaultNetwork (gs_Addr srv) res) evs /\
  fst (createListener P srv h) =
    match res with
    | inl l => (None, set_Listener srv (Some l))
    | inr e => (Some e, set_Listener srv None)
    end.
Proof.
  intros He. unfold createListener, newListener. run. rewrite He.
  cbn [String.eqb negb]. run.
  destruct (net_Listen P _ _ _); run; cbn; repeat split; tauto.
Qed.

Lemma X2_createListener_without_payload_witness :
  fst (createListener (Sim.platform Sim.calm)
                      (mkGracefulServer "localhost:8080" 0 Sim.server None) [])
    = (None, mkGracefulServer "localhost:8080" 0 Sim.server
                              (Some (TCPListener 6))).
Proof.
  refine (eq_trans
            (proj2 (proj2 (proj2 (proj2 (proj2
               (X2_createListener_without_payload
                  (Sim.platform Sim.calm)
                  (mkGracefulServer "localhost:8080" 0 Sim.server None) []
                  _)))))) _).
  - reflexivity.
  - reflexivity.
Defined.

(** A list whose reverse starts with [x] ends with [x]. *)
Lemma ends_with {A} (x : A) tl l : rev l = x :: tl -> l = rev tl ++ [x].
Proof. intros H. rewrite <- (rev_involutive l), H. reflexivity. Qed.

(** X3.  Both functions that are handed a file close it before they return,
    on every path: [importListener] the file made by [os.NewFile],
    [forkChild] the file of the listener.  The close is the last effect of
    the run and no other file is closed. *)
Theorem X3_files_are_closed (P : Platform) srv env killMaster mpid h :
  (let evs := snd (importListener P srv env h) in
   count is_FileClose evs = count is_opened evs /\
   forall fd name f,
     In (EvNewFile fd name (Some f)) evs ->
     exists pre, evs = pre ++ [EvFileClose f] /\ count is_FileClose pre = 0%nat) /\
  (let evs := snd (forkChild P srv killMaster mpid h) in
   count is_FileClose evs = count is_opened evs /\
   forall l f,
     In (EvListenerFile l (inl f)) evs ->
     exists pre, evs = pre ++ [EvFileClose f] /\ count is_FileClose pre = 0%nat).
Proof.
  split.
  - unfold importListener. run.
    repeat (answer; run); (split; [reflexivity|]); intros fd name f0 Hin; sift;
      eexists; (split; [eapply ends_with; cbn [rev app]; reflexivity
                       | reflexivity]).
  - unfold forkChild, createListenerFile.
    destruct (gs_Listener srv) as [[s|s|s]|]; run;
      repeat (answer; run); (split; [reflexivity|]); intros l0 f0 Hin; sift;
      eexists; (split; [eapply ends_with; cbn [rev app]; reflexivity
                       | reflexivity]).
Qed.

Lemma X3_files_are_closed_witness :
  (exists pre,
      snd (importListener
             (Sim.platform
                (Sim.inherited "localhost:8080" "tcp:127.0.0.1:8080->" 3))
             (mkGracefulServer "localhost:8080" 0 Sim.server None)
             (Sim.encode (mkDescriptor "localhost:8080" 3 "tcp:127.0.0.1:8080->"))
             []) =
        pre ++ [EvFileClose (mkFile 3 "tcp:127.0.0.1:8080->")]) /\
  (exists pre,
      snd (forkChild (Sim.platform Sim.fork_failing) Sim.master false 52233 []) =
        pre ++ [EvFileClose (mkFile 7 "tcp:127.0.0.1:8080->")]).
Proof.
  split.
  - destruct (proj2 (proj1 (X3_files_are_closed
                              (Sim.platform
                                 (Sim.inherited "localhost:8080"
                                                "tcp:127.0.0.1:8080->" 3))
                              (mkGracefulServer "localhost:8080" 0 Sim.server None)
                              (Sim.encode (mkDescriptor "localhost:8080" 3
                                                        "tcp:127.0.0.1:8080->"))
                              false 0 []))
                    3 "tcp:127.0.0.1:8080->" (mkFile 3 "tcp:127.0.0.1:8080->"))
      as (pre & H & _).
    + vm_compute. left. reflexivity.
    + exists pre. exact H.
  - destruct (proj2 (proj2 (X3_files_are_closed
                              (Sim.platform Sim.fork_failing) Sim.master ""
                              false 52233 []))
                    (TCPListener 6) (mkFile 7 "tcp:127.0.0.1:8080->"))
      as (pre & H & _).
    + vm_compute. left. reflexivity.
    + exists pre. exact H.
Defined.

(** X4.  How [importListener] fails.  A payload that does not parse, or whose
    address is not the server's, is refused without any call to the
    operating system, the server untouched; the message of the second names
    the address that was asked for.  When [os.NewFile] gives no file the
    error names the file and the server is untouched too.  When
    [net.FileListener] fails, its error is the one returned and the listener
    of the server is left nil; any other failure leaves the server as it
    was.  [importListener] never calls [net.Listen], in any run. *)
Theorem X4_importListener_failures (P : Platform) srv env h :
  (forall e0,
      json_Unmarshal P env = inr e0 ->
      importListener P srv env h =
        ((Some (fmt_Errorf "unable to unmarsh [%s] environment variable"
                           [AStr env]), srv), [])) /\
  (forall fl,
      json_Unmarshal P env = inl fl -> Addr fl <> gs_Addr srv ->
      importListener P srv env h =
        ((Some (fmt_Errorf "unable to find listener on %s"
                           [AStr (gs_Addr srv)]), srv), [])) /\
  (forall fl,
      json_Unmarshal P env = inl fl -> Addr fl = gs_Addr srv ->
      os_NewFile P h (uintptr (FD fl)) (Name fl) = None ->
      importListener P srv env h =
        ((Some (fmt_Errorf "unable to create listener file %s"
                           [AStr (Name fl)]), srv),
         [EvNewFile (uintptr (FD fl)) (Name fl) None])) /\
  (forall f e,
      In (EvFileListener f (inr e)) (snd (importListener P srv env h)) ->
      fst (importListener P srv env h) = (Some e, set_Listener srv None)) /\
  (forall e srv',
      fst (importListener P srv env h) = (Some e, srv') ->
      count is_FileListener (snd (importListener P srv env h)) = 0%nat ->
      srv' = srv) /\
  count is_Listen (snd (importListener P srv env h)) = 0%nat.
Proof.
  split; [|split; [|split; [|split; [|split]]]].
  - intros e0 Hu. unfold importListener. now rewrite Hu.
  - intros fl Hu Ha. unfold importListener. rewrite Hu.
    apply String.eqb_neq in Ha. now rewrite Ha.
  - intros fl Hu Ha Hf. unfold importListener. rewrite Hu.
    apply String.eqb_eq in Ha. rewrite Ha. cbn [negb]. run.
    rewrite Hf. run. reflexivity.
  - intros f e. unfold importListener. run.
    repeat (answer; run); intros Hin; sift; reflexivity.
  - intros e srv'. unfold importListener. run.
    repeat (answer; run); intros H C; inversion H; subst;
      first [reflexivity | discriminate C].
  - unfold importListener. run. repeat (answer; run); reflexivity.
Qed.

Lemma X4_importListener_failures_witness :
  let srv := mkGracefulServer "localhost:8080" 0 Sim.server
                              (Some (TCPListener 6)) in
  importListener (Sim.platform Sim.calm) srv "{addr}" [] =
    ((Some (fmt_Errorf "unable to unmarsh [%s] environment variable"
                       [AStr "{addr}"]), srv), []) /\
  importListener (Sim.platform Sim.calm) srv
                 (Sim.encode (mkDescriptor "0.0.0.0:80" 3 "l")) [] =
    ((Some (fmt_Errorf "unable to find listener on %s"
                       [AStr "localhost:8080"]), srv), []) /\
  importListener (Sim.platform Sim.calm) srv
                 (Sim.encode (mkDescriptor "localhost:8080" (-1) "l")) [] =
    ((Some (fmt_Errorf "unable to create listener file %s" [AStr "l"]), srv),
     [EvNewFile 18446744073709551615 "l" None]) /\
  fst (importListener (Sim.platform Sim.calm) srv
                      (Sim.encode (mkDescriptor "localhost:8080" 3 "l")) []) =
    (Some (runtime_error "socket operation on non-socket"),
     mkGracefulServer "localhost:8080" 0 Sim.server None) /\
  (forall e srv',
      fst (importListener (Sim.platform Sim.calm) srv "{addr}" [])
        = (Some e, srv') -> srv' = srv).
Proof.
  intros srv.
  destruct (X4_importListener_failures (Sim.platform Sim.calm) srv "{addr}" [])
    as (H1 & _ & _ & _ & H5 & _).
  destruct (X4_importListener_failures
              (Sim.platform Sim.calm) srv
              (Sim.encode (mkDescriptor "0.0.0.0:80" 3 "l")) [])
    as (_ & H2 & _).
  destruct (X4_importListener_failures
              (Sim.platform Sim.calm) srv
              (Sim.encode (mkDescriptor "localhost:8080" (-1) "l")) [])
    as (_ & _ & H3 & _).
  destruct (X4_importListener_failures
              (Sim.platform Sim.calm) srv
              (Sim.encode (mkDescriptor "localhost:8080" 3 "l")) [])
    as (_ & _ & _ & H4 & _).
  split; [|split; [|split; [|split]]].
  - eapply H1. vm_compute. reflexivity.
  - eapply H2; [vm_compute; reflexivity | vm_compute; discriminate].
  - apply (H3 (mkDescriptor "localhost:8080" (-1) "l"));
      vm_compute; reflexivity.
  - apply (H4 (mkFile 3 "l")). vm_compute. right. left. reflexivity.
  - intros e srv' E. apply (H5 e srv' E). vm_compute. reflexivity.
Defined.

(** X5.  [importListener] opens the descriptor that the payload names,
    whatever its number: it is not compared with 3.  A number from 0 up is
    passed as it is; a negative one is passed as that number plus 2^64, a
    value that is at least 2^63. *)
Theorem X5_importListener_opens_the_named_slot (P : Platform) srv env h fl :
  json_Unmarshal P env = inl fl ->
  Addr fl = gs_Addr srv ->
  (0 <= FD fl < 2 ^ 64 ->
   exists more,
     snd (importListener P srv env h) =
       EvNewFile (FD fl) (Name fl) (os_NewFile P h (FD fl) (Name fl)) :: more) /\
  (- 2 ^ 63 <= FD fl < 0 ->
   2 ^ 63 <= FD fl + 2 ^ 64 /\
   exists more,
     snd (importListener P srv env h) =
       EvNewFile (FD fl + 2 ^ 64) (Name fl)
                 (os_NewFile P h (FD fl + 2 ^ 64) (Name fl)) :: more).
Proof.
  intros Hu Ha.
  assert (Shape : exists more,
             snd (importListener P srv env h) =
               EvNewFile (uintptr (FD fl)) (Name fl)
                         (os_NewFile P h (uintptr (FD fl)) (Name fl)) :: more).
  { unfold importListener. rewrite Hu.
    apply String.eqb_eq in Ha. rewrite Ha. cbn [negb]. run.
    repeat (answer; run); eexists; reflexivity. }
  split.
  - intros Hr.
    assert (E : uintptr (FD fl) = FD fl).
    { unfold uintptr. apply Z.mod_small. exact Hr. }
    rewrite E in Shape. exact Shape.
  - intros Hr. split; [lia|].
    assert (E : uintptr (FD fl) = FD fl + 2 ^ 64).
    { unfold uintptr.
      rewrite <- (Z.mod_add (FD fl) 1 (2 ^ 64)) by lia.
      apply Z.mod_small. lia. }
    rewrite E in Shape. exact Shape.
Qed.

Lemma X5_importListener_opens_the_named_slot_witness :
  (exists more,
      snd (importListener
             (Sim.platform Sim.calm)
             (mkGracefulServer "localhost:8080" 0 Sim.server None)
             (Sim.encode (mkDescriptor "localhost:8080" 5 "l")) []) =
        EvNewFile 5 "l" (Some (mkFile 5 "l")) :: more) /\
  (exists more,
      snd (importListener
             (Sim.platform Sim.calm)
             (mkGracefulServer "localhost:8080" 0 Sim.server None)
             (Sim.encode (mkDescriptor "localhost:8080" (-1) "l")) []) =
        EvNewFile 18446744073709551615 "l" None :: more).
Proof.
  split.
  - destruct (proj1 (X5_importListener_opens_the_named_slot
                       (Sim.platform Sim.calm)
                       (mkGracefulServer "localhost:8080" 0 Sim.server None)
                       (Sim.encode (mkDescriptor "localhost:8080" 5 "l")) []
                       (mkDescriptor "localhost:8080" 5 "l")
                       ltac:(vm_compute; reflexivity) eq_refl)
                    ltac:(cbn; lia))
      as (more & H).
    exists more. exact H.
  - destruct (proj2 (X5_importListener_opens_the_named_slot
                       (Sim.platform Sim.calm)
                       (mkGracefulServer "localhost:8080" 0 Sim.server None)
                       (Sim.encode (mkDescriptor "localhost:8080" (-1) "l")) []
                       (mkDescriptor "localhost:8080" (-1) "l")
                       ltac:(vm_compute; reflexivity) eq_refl)
                    ltac:(cbn; lia))
      as (_ & more & H).
    exists more. exact H.
Defined.

(** X6.  [forkChild] on a server whose listener is neither a TCP nor a unix
    listener (nil included) fails with the unsupported-listener error before
    any call to the operating system; and a run of [forkChild] with no
    effect at all is such a run. *)
Theorem X6_forkChild_unsupported_listener (P : Platform) srv killMaster mpid h :
  (supported (gs_Listener srv) = false ->
   forkChild P srv killMaster mpid h =
     (Some (fmt_Errorf "unsupported listener: %T" [ATypeOf (gs_Listener srv)]),
      [])) /\
  (snd (forkChild P srv killMaster mpid h) = [] ->
   supported (gs_Listener srv) = false).
Proof.
  unfold forkChild, createListenerFile.
  destruct (gs_Listener srv) as [[s|s|s]|]; cbn [supported]; run; split;
    try (intros H; discriminate H); try reflexivity;
    repeat (answer; run); intros H; discriminate H.
Qed.

Lemma X6_forkChild_unsupported_listener_witness :
  forkChild (Sim.platform Sim.calm)
            (mkGracefulServer "localhost:8080" 52233 Sim.server None)
            true 52233 [] =
    (Some (fmt_Errorf "unsupported listener: %T" [ATypeOf None]), []).
Proof.
  apply (proj1 (X6_forkChild_unsupported_listener
                  (Sim.platform Sim.calm)
                  (mkGracefulServer "localhost:8080" 52233 Sim.server None)
                  true 52233 [])).
  reflexivity.
Defined.

(** X7.  [forkChild] returns nil exactly when a child process was started
    and, with the kill-master flag set, the terminate signal was sent to the
    master without error. *)
Theorem X7_forkChild_nil_iff_child_started
        (P : Platform) srv killMaster mpid h :
  let evs := snd (forkChild P srv killMaster mpid h) in
  fst (forkChild P srv killMaster mpid h) = None <->
  (exists name argv attr p, In (EvStartProcess name argv attr (inl p)) evs) /\
  (killMaster = true -> In (EvKill mpid syscall_SIGTERM None) evs).
Proof.
  unfold forkChild, createListenerFile.
  destruct (gs_Listener srv) as [[s|s|s]|]; run;
    repeat (answer; run); cbv zeta; cbn [fst snd]; split;
    try (intros H; discriminate H);
    try (intros [(? & ? & ? & ? & Hin) Hk]; sift; fail);
    try (intros [(? & ? & ? & ? & Hin) Hk];
         specialize (Hk eq_refl); sift; congruence);
    try (intros _; split;
         [ do 4 eexists; cbn [In]; do 3 right; left; reflexivity
         | intros Hk; try discriminate Hk; cbn [In]; do 5 right; left;
           congruence ]);
    try reflexivity.
Qed.

Lemma X7_forkChild_nil_iff_child_started_witness :
  fst (forkChild (Sim.platform Sim.calm) Sim.master true 52233 []) = None /\
  fst (forkChild (Sim.platform Sim.kill_failing) Sim.master true 52233 [])
    <> None.
Proof.
  split.
  - apply (proj2 (X7_forkChild_nil_iff_child_started
                    (Sim.platform Sim.calm) Sim.master true 52233 [])).
    split.
    + do 4 eexists. vm_compute. do 3 right. left. reflexivity.
    + intros _. vm_compute. do 5 right. left. reflexivity.
  - intros H.
    apply (proj1 (X7_forkChild_nil_iff_child_started
                    (Sim.platform Sim.kill_failing) Sim.master true 52233 []))
      in H.
    destruct H as [_ H]. specialize (H eq_refl). vm_compute in H.
    repeat (destruct H as [H|H]; [discriminate H|]). exact H.
Defined.

(** X8.  The only signal [forkChild] ever sends is the terminate signal, to
    the process identifier it was given, at most once, only with the
    kill-master flag set and only after a child process was started. *)
Theorem X8_forkChild_signals_only_the_master
        (P : Platform) srv killMaster mpid h :
  let evs := snd (forkChild P srv killMaster mpid h) in
  (count is_Kill evs <= 1)%nat /\
  (killMaster = false -> count is_Kill evs = 0%nat) /\
  (forall pid sig res,
      In (EvKill pid sig res) evs ->
      killMaster = true /\ pid = mpid /\ sig = syscall_SIGTERM /\
      exists name argv attr p, In (EvStartProcess name argv attr (inl p)) evs).
Proof.
  unfold forkChild, createListenerFile.
  destruct (gs_Listener srv) as [[s|s|s]|]; run;
    repeat (answer; run); cbv zeta; cbn [fst snd];
    (split; [cbn; lia|]);
    (split; [intros Hk; first [discriminate Hk | reflexivity]|]);
    intros pid sig res Hin; sift;
    repeat split; do 4 eexists; cbn [In]; do 3 right; left; reflexivity.
Qed.

Lemma X8_forkChild_signals_only_the_master_witness :
  count is_Kill
        (snd (forkChild (Sim.platform Sim.calm) Sim.master false 52233 []))
    = 0%nat /\
  In (EvKill 52233 syscall_SIGTERM None)
     (snd (forkChild (Sim.platform Sim.calm) Sim.master true 52233 [])) /\
  exists name argv attr p,
    In (EvStartProcess name argv attr (inl p))
       (snd (forkChild (Sim.platform Sim.calm) Sim.master true 52233 [])).
Proof.
  split.
  - apply (proj1 (proj2 (X8_forkChild_signals_only_the_master
                           (Sim.platform Sim.calm) Sim.master false 52233 []))).
    reflexivity.
  - assert (Hin : In (EvKill 52233 syscall_SIGTERM None)
                     (snd (forkChild (Sim.platform Sim.calm) Sim.master true
                                     52233 []))).
    { vm_compute. do 5 right. left. reflexivity. }
    split; [exact Hin|].
    apply (proj2 (proj2 (X8_forkChild_signals_only_the_master
                           (Sim.platform Sim.calm) Sim.master true 52233 []))
                 _ _ _ Hin).
Defined.

(** X9.  The process that [forkChild] starts is the running executable,
    as [os.Executable] names it, with that path as its only argument (the
    arguments of the master are not passed on), in the directory of the
    executable, with the empty system attributes, and with the environment of
    the master, whole and in order, followed by the one entry for the
    listener. *)
Theorem X9_forkChild_child_image
        (P : Platform) srv killMaster mpid h name argv attr res :
  let evs := snd (forkChild P srv killMaster mpid h) in
  In (EvStartProcess name argv attr res) evs ->
  argv = [name] /\
  In (EvExecutable (inl name)) evs /\
  Dir attr = filepath_Dir P name /\
  Sys attr = SysProcAttr_empty /\
  exists environ env,
    In (EvEnviron environ) evs /\
    Env attr = environ ++ [(DefaultEnvVar ++ "=" ++ env)%string].
Proof.
  unfold forkChild, createListenerFile.
  destruct (gs_Listener srv) as [[s|s|s]|]; run;
    repeat (answer; run); cbv zeta; cbn [fst snd]; intros Hin; sift;
    (split; [reflexivity|]);
    (split; [cbn [In]; tauto|]);
    (split; [reflexivity|]);
    (split; [reflexivity|]);
    do 2 eexists;
    (split; [cbn [In]; right; left; reflexivity|]);
    reflexivity.
Qed.

Lemma X9_forkChild_child_image_witness :
  exists attr,
    In (EvStartProcess "/srv/bin/server" ["/srv/bin/server"] attr
                       (inl (mkProcess 52234)))
       (snd (forkChild (Sim.platform Sim.calm) Sim.master false 52233 [])) /\
    Dir attr = "/srv/bin".
Proof.
  exists (mkProcAttr
            "/srv/bin"
            ["HOME=/root";
             (DefaultEnvVar ++ "=" ++
              Sim.encode (mkDescriptor "localhost:8080" 3 "tcp:127.0.0.1:8080->"))
               %string]
            [os_Stdin; os_Stdout; os_Stderr; mkFile 7 "tcp:127.0.0.1:8080->"]
            SysProcAttr_empty).
  match goal with
  | |- ?A /\ _ => assert (Hin : A)
  end.
  { vm_compute. do 3 right. left. reflexivity. }
  split; [exact Hin|].
  destruct (X9_forkChild_child_image
              (Sim.platform Sim.calm) Sim.master false 52233 [] _ _ _ _ Hin)
    as (_ & _ & HD & _).
  rewrite HD. reflexivity.
Defined.

Section DispatcherFacts.

Variable P : Platform.
Variables (srv : GracefulServer) (killMaster : bool) (mpid : Z).

(** Every signal falls in one case of the switch. *)
Lemma signal_cases (sig : Signal) :
  sig = syscall_SIGHUP \/
  (sig = syscall_SIGUSR1 \/ sig = syscall_SIGUSR2) \/
  (sig = syscall_SIGINT \/ sig = syscall_SIGTERM) \/
  ~ In sig sigHooks.
Proof.
  destruct (Z.eq_dec sig syscall_SIGHUP); [tauto|].
  destruct (Z.eq_dec sig syscall_SIGUSR1); [tauto|].
  destruct (Z.eq_dec sig syscall_SIGUSR2); [tauto|].
  destruct (Z.eq_dec sig syscall_SIGINT); [tauto|].
  destruct (Z.eq_dec sig syscall_SIGTERM); [tauto|].
  do 3 right. unfold sigHooks. cbn [In]. intuition congruence.
Qed.

(** The case of interrupt and terminate. *)
Lemma term_body sig h :
  sig = syscall_SIGINT \/ sig = syscall_SIGTERM ->
  handleSignals_body P srv killMaster mpid sig h =
    (let pre := received mpid sig in
     let (res, sd) := shutDown P srv (h ++ pre) in
     (Return res, pre ++ sd)).
Proof.
  intros [-> | ->]; unfold handleSignals_body;
    cbn [Z.eqb syscall_SIGHUP syscall_SIGUSR1 syscall_SIGUSR2 syscall_SIGINT
         syscall_SIGTERM Pos.eqb orb];
    unfold received; run; assoc;
    destruct (shutDown P srv _) as [res sd]; now rewrite app_nil_r.
Qed.

(** The [default] case. *)
Lemma default_body sig h :
  ~ In sig sigHooks ->
  handleSignals_body P srv killMaster mpid sig h =
    (Continue,
     received mpid sig ++
     [EvLog (Printf "[INFO] The signal %q is not a hooked one, ignored!"
                    [ASig sig])]).
Proof.
  intros Hun.
  destruct (unhooked_tests sig Hun) as (H1 & H2 & H3 & H4 & H5).
  unfold handleSignals_body. rewrite H1, H2, H3, H4, H5. reflexivity.
Qed.

(** An iteration either goes on without a shutdown, or ends with the one
    shutdown whose answer it returns. *)
Lemma body_shutdown sig h :
  let (c, evs) := handleSignals_body P srv killMaster mpid sig h in
  match c with
  | Continue => count is_Shutdown evs = 0%nat
  | Return e =>
      exists pre,
        evs = pre ++ snd (shutDown P srv (h ++ pre)) /\
        e = fst (shutDown P srv (h ++ pre)) /\
        count is_Shutdown pre = 0%nat
  end.
Proof.
  destruct (signal_cases sig) as [-> | [U | [T | D]]].
  - rewrite hangup_body. cbv zeta.
    pose proof (forkChild_events P srv killMaster mpid
                  (h ++ received mpid syscall_SIGHUP)) as F.
    destruct (forkChild P srv killMaster mpid _) as [[e|] fk];
      destruct F as (F & _).
    + rewrite !count_app, F. reflexivity.
    + destruct (shutDown P srv _) as [res sd] eqn:Hs.
      exists (received mpid syscall_SIGHUP ++ fk).
      rewrite Hs, count_app, F, <- app_assoc. repeat split.
  - pose proof (user_body_counts P srv killMaster mpid sig U h) as C.
    pose proof (user_body_continues P srv killMaster mpid sig U h) as K.
    destruct (handleSignals_body P srv killMaster mpid sig h) as [c evs].
    cbn [fst snd] in *. subst c. apply C.
  - rewrite (term_body sig h T). cbv zeta.
    destruct (shutDown P srv _) as [res sd] eqn:Hs.
    exists (received mpid sig). rewrite Hs. repeat split.
  - rewrite (default_body sig h D). reflexivity.
Qed.

(** Running the loop on [a ++ b] is running it on [a] and, when that ends
    waiting, running it on [b] from there. *)
Lemma loop_app a : forall b h,
  handleSignals_loop P srv killMaster mpid (a ++ b) h =
    (let (o, e1) := handleSignals_loop P srv killMaster mpid a h in
     match o with
     | Blocked =>
         let (o', e2) :=
           handleSignals_loop P srv killMaster mpid b (h ++ e1) in
         (o', e1 ++ e2)
     | _ => (o, e1)
     end).
Proof.
  induction a as [|sig a IH]; intros b h.
  - cbn [app handleSignals_loop]. unfold ret. rewrite app_nil_r.
    now destruct (handleSignals_loop P srv killMaster mpid b h).
  - cbn [app]. rewrite !loop_step.
    destruct (handleSignals_body P srv killMaster mpid sig h) as [[|e] evs].
    + rewrite IH.
      destruct (handleSignals_loop P srv killMaster mpid a (h ++ evs))
        as [[r|c|] e1]; try reflexivity.
      rewrite <- app_assoc.
      destruct (handleSignals_loop P srv killMaster mpid b (h ++ evs ++ e1))
        as [o' e2].
      now rewrite app_assoc.
    + reflexivity.
Qed.

(** The loop is left only through a shutdown. *)
Lemma loop_shutdown sigs : forall h,
  let (o, evs) := handleSignals_loop P srv killMaster mpid sigs h in
  match o with
  | Returned e =>
      exists pre,
        evs = pre ++ snd (shutDown P srv (h ++ pre)) /\
        e = fst (shutDown P srv (h ++ pre)) /\
        count is_Shutdown pre = 0%nat
  | Blocked => count is_Shutdown evs = 0%nat
  | Exited _ => False
  end.
Proof.
  induction sigs as [|sig sigs IH]; intros h.
  - reflexivity.
  - rewrite loop_step.
    pose proof (body_shutdown sig h) as B.
    destruct (handleSignals_body P srv killMaster mpid sig h) as [[|e] evs].
    + specialize (IH (h ++ evs)).
      destruct (handleSignals_loop P srv killMaster mpid sigs (h ++ evs))
        as [[r|c|] more].
      * destruct IH as (pre & E & R & C).
        exists (evs ++ pre).
        rewrite (app_assoc h), count_app, B, C, <- app_assoc, <- E.
        repeat split. exact R.
      * exact IH.
      * rewrite count_app, B, IH. reflexivity.
    + exact B.
Qed.

End DispatcherFacts.

(** X10.  Interrupt and terminate shut the server down and nothing else: the
    iteration is the receive, its log line and the four effects of one
    shutdown (no fork), and the loop is left with the answer of the serving
    engine, the signals that follow unread. *)
Theorem X10_interrupt_and_terminate_shut_down
        (P : Platform) srv killMaster mpid sig rest h :
  sig = syscall_SIGINT \/ sig = syscall_SIGTERM ->
  let pre := received mpid sig in
  let now := time_Now P (h ++ pre) in
  let ctx := mkContext (now + DefaultAwaitTimeout) in
  let line := EvLog (Printf "[INFO] Digesting requests will be timed out at %v"
                            [ATime (now + DefaultAwaitTimeout)
                                   "2006-01-02 15:04:05"]) in
  let res := server_Shutdown P (h ++ pre ++ [EvNow now; line]) (gs_Server srv)
                             ctx in
  handleSignals_loop P srv killMaster mpid (sig :: rest) h =
    (Returned res,
     pre ++ [EvNow now; line; EvShutdown (gs_Server srv) ctx res; EvCancel ctx]).
Proof.
  intros T. cbv zeta.
  rewrite loop_step, (term_body P srv killMaster mpid sig h T). cbv zeta.
  rewrite shutDown_run. cbv zeta. assoc. reflexivity.
Qed.

Lemma X10_interrupt_and_terminate_witness :
  fst (handleSignals_loop (Sim.platform Sim.stuck) Sim.master true 52233
                          [syscall_SIGINT; syscall_SIGHUP] [])
    = Returned (Some (runtime_error "context deadline exceeded")).
Proof.
  rewrite (X10_interrupt_and_terminate_shut_down
             (Sim.platform Sim.stuck) Sim.master true 52233 syscall_SIGINT
             [syscall_SIGHUP] [] (or_introl eq_refl)).
  reflexivity.
Defined.

(** X11.  Signals compose in order.  Once the loop has returned on a
    sequence of signals, whatever is delivered after them changes nothing;
    and when the loop still waits after a sequence, the signals delivered
    next are handled from the history reached. *)
Theorem X11_signals_are_handled_in_order
        (P : Platform) srv killMaster mpid a b h :
  (forall e evs,
      handleSignals_loop P srv killMaster mpid a h = (Returned e, evs) ->
      handleSignals_loop P srv killMaster mpid (a ++ b) h = (Returned e, evs)) /\
  (forall evs,
      handleSignals_loop P srv killMaster mpid a h = (Blocked, evs) ->
      handleSignals_loop P srv killMaster mpid (a ++ b) h =
        (let (o, more) :=
           handleSignals_loop P srv killMaster mpid b (h ++ evs) in
         (o, evs ++ more))).
Proof.
  split; intros; rewrite loop_app; cbv zeta;
    match goal with H : _ = _ |- _ => rewrite H end; reflexivity.
Qed.

Lemma X11_signals_are_handled_in_order_witness :
  fst (handleSignals_loop (Sim.platform Sim.calm) Sim.master false 52233
                          ([syscall_SIGTERM] ++ [syscall_SIGUSR1]) [])
    = Returned None /\
  fst (handleSignals_loop (Sim.platform Sim.calm) Sim.master false 52233
                          ([syscall_SIGUSR1] ++ [syscall_SIGTERM]) [])
    = Returned None.
Proof.
  split.
  - erewrite (proj1 (X11_signals_are_handled_in_order
                       (Sim.platform Sim.calm) Sim.master false 52233
                       [syscall_SIGTERM] [syscall_SIGUSR1] [])).
    + reflexivity.
    + vm_compute. reflexivity.
  - erewrite (proj2 (X11_signals_are_handled_in_order
                       (Sim.platform Sim.calm) Sim.master false 52233
                       [syscall_SIGUSR1] [syscall_SIGTERM] [])).
    + vm_compute. reflexivity.
    + vm_compute. reflexivity.
Defined.

(** [handleSignals] is the registration of the hooks, then the loop. *)
Lemma handleSignals_run (P : Platform) srv killMaster mpid sigs h :
  handleSignals P srv killMaster mpid sigs h =
    (let (o, evs) :=
       handleSignals_loop P srv killMaster mpid (signal_Notify sigHooks sigs)
                          (h ++ [EvNotify sigHooks]) in
     (o, EvNotify sigHooks :: evs)).
Proof. unfold handleSignals. run. reflexivity. Qed.

(** How [handleSignals] ends. *)
Lemma handleSignals_outcome (P : Platform) srv killMaster mpid sigs h :
  let (o, evs) := handleSignals P srv killMaster mpid sigs h in
  match o with
  | Returned e =>
      exists pre now,
        let ctx := mkContext (now + 5 * time_Second) in
        let line :=
          EvLog (Printf "[INFO] Digesting requests will be timed out at %v"
                        [ATime (now + 5 * time_Second) "2006-01-02 15:04:05"]) in
        evs = pre ++ [EvNow now; line; EvShutdown (gs_Server srv) ctx e;
                      EvCancel ctx] /\
        count is_Shutdown pre = 0%nat
  | Blocked => count is_Shutdown evs = 0%nat
  | Exited _ => False
  end.
Proof.
  rewrite handleSignals_run.
  pose proof (loop_shutdown P srv killMaster mpid (signal_Notify sigHooks sigs)
                            (h ++ [EvNotify sigHooks])) as L.
  destruct (handleSignals_loop P srv killMaster mpid _ _) as [[e|c|] evs].
  - destruct L as (pre & E & R & C).
    rewrite shutDown_run in E, R. cbv zeta in E, R. cbn [fst snd] in E, R.
    exists (EvNotify sigHooks :: pre), (time_Now P ((h ++ [EvNotify sigHooks]) ++ pre)).
    cbv zeta. split.
    + rewrite E, R. reflexivity.
    + exact C.
  - exact L.
  - exact L.
Qed.

(** X12.  [handleSignals] comes back only through a shutdown: when it
    returns, the run ends with the four effects of the one shutdown it made
    (deadline five seconds after the clock reading) and the value returned
    is what the serving engine answered; while it waits for a signal no
    shutdown has been made; and it never exits the process. *)
Theorem X12_handleSignals_returns_only_through_shutdown
        (P : Platform) srv killMaster mpid sigs h :
  (forall e evs,
      handleSignals P srv killMaster mpid sigs h = (Returned e, evs) ->
      exists pre now,
        let ctx := mkContext (now + 5 * time_Second) in
        let line :=
          EvLog (Printf "[INFO] Digesting requests will be timed out at %v"
                        [ATime (now + 5 * time_Second) "2006-01-02 15:04:05"]) in
        evs = pre ++ [EvNow now; line; EvShutdown (gs_Server srv) ctx e;
                      EvCancel ctx] /\
        count is_Shutdown pre = 0%nat) /\
  (forall evs,
      handleSignals P srv killMaster mpid sigs h = (Blocked, evs) ->
      count is_Shutdown evs = 0%nat) /\
  (forall c, fst (handleSignals P srv killMaster mpid sigs h) <> Exited c).
Proof.
  pose proof (handleSignals_outcome P srv killMaster mpid sigs h) as O.
  destruct (handleSignals P srv killMaster mpid sigs h) as [o evs0].
  split; [|split].
  - intros e evs E. injection E as -> ->. exact O.
  - intros evs E. injection E as -> ->. exact O.
  - intros c E. cbn [fst] in E. subst o. exact O.
Qed.

Lemma X12_handleSignals_returns_only_through_shutdown_witness :
  (exists pre now,
      snd (handleSignals (Sim.platform Sim.calm) Sim.master false 52233
                         [syscall_SIGUSR1; syscall_SIGTERM] []) =
        pre ++ [EvNow now;
                EvLog (Printf "[INFO] Digesting requests will be timed out at %v"
                              [ATime (now + 5 * time_Second)
                                     "2006-01-02 15:04:05"]);
                EvShutdown Sim.server (mkContext (now + 5 * time_Second)) None;
                EvCancel (mkContext (now + 5 * time_Second))]) /\
  count is_Shutdown
        (snd (handleSignals (Sim.platform Sim.calm) Sim.master false 52233
                            [syscall_SIGUSR1] [])) = 0%nat.
Proof.
  split.
  - destruct (handleSignals (Sim.platform Sim.calm) Sim.master false 52233
                            [syscall_SIGUSR1; syscall_SIGTERM] [])
      as [o evs] eqn:E.
    assert (Ho : o = Returned None).
    { apply (f_equal fst) in E. vm_compute in E. symmetry. exact E. }
    subst o.
    destruct (proj1 (X12_handleSignals_returns_only_through_shutdown
                       (Sim.platform Sim.calm) Sim.master false 52233
                       [syscall_SIGUSR1; syscall_SIGTERM] []) None evs E)
      as (pre & now & H & _).
    exists pre, now. exact H.
  - apply (proj1 (proj2 (X12_handleSignals_returns_only_through_shutdown
                           (Sim.platform Sim.calm) Sim.master false 52233
                           [syscall_SIGUSR1] []))).
    apply injective_projections; [vm_compute; reflexivity | reflexivity].
Defined.

(** A property of events that holds of what [forkChild] and [shutDown] do,
    of the receive and of log lines, holds of all that the loop does. *)
Section LoopInvariant.

Variable P : Platform.
Variables (srv : GracefulServer) (killMaster : bool) (mpid : Z).
Variable Q : Event -> Prop.
Hypothesis Q_recv : forall sig, Q (EvRecv sig).
Hypothesis Q_log : forall l, Q (EvLog l).
Hypothesis Q_fork : forall h, Forall Q (snd (forkChild P srv killMaster mpid h)).
Hypothesis Q_shut : forall h, Forall Q (snd (shutDown P srv h)).

Lemma received_Forall sig : Forall Q (received mpid sig).
Proof. unfold received. repeat constructor; auto. Qed.

Lemma body_Forall sig h :
  Forall Q (snd (handleSignals_body P srv killMaster mpid sig h)).
Proof.
  destruct (signal_cases sig) as [-> | [U | [T | D]]].
  - rewrite hangup_body. cbv zeta.
    pose proof (Q_fork (h ++ received mpid syscall_SIGHUP)) as F.
    destruct (forkChild P srv killMaster mpid _) as [[e|] fk]; cbn [snd] in *.
    + repeat (apply Forall_app; split); auto using received_Forall;
        repeat constructor; apply Q_log.
    + pose proof (Q_shut (h ++ received mpid syscall_SIGHUP ++ fk)) as S.
      destruct (shutDown P srv _) as [res sd]. cbn [snd] in *.
      repeat (apply Forall_app; split); auto using received_Forall.
  - rewrite (user_body P srv killMaster mpid sig h U). cbv zeta.
    pose proof (Q_fork (h ++ received mpid sig)) as F.
    destruct (forkChild P srv killMaster mpid _) as [[e|] fk]; cbn [snd] in *;
      repeat (apply Forall_app; split); auto using received_Forall;
      repeat constructor; apply Q_log.
  - rewrite (term_body P srv killMaster mpid sig h T). cbv zeta.
    pose proof (Q_shut (h ++ received mpid sig)) as S.
    destruct (shutDown P srv _) as [res sd]. cbn [snd] in *.
    apply Forall_app; split; auto using received_Forall.
  - rewrite (default_body P srv killMaster mpid sig h D). cbn [snd].
    apply Forall_app; split; auto using received_Forall;
      repeat constructor; apply Q_log.
Qed.

Lemma loop_Forall sigs : forall h,
  Forall Q (snd (handleSignals_loop P srv killMaster mpid sigs h)).
Proof.
  induction sigs as [|sig sigs IH]; intros h.
  - constructor.
  - rewrite loop_step.
    pose proof (body_Forall sig h) as B.
    destruct (handleSignals_body P srv killMaster mpid sig h) as [[|e] evs];
      cbn [snd] in B.
    + specialize (IH (h ++ evs)).
      destruct (handleSignals_loop P srv killMaster mpid sigs (h ++ evs))
        as [o more].
      cbn [snd] in *. apply Forall_app; split; assumption.
    + exact B.
Qed.

End LoopInvariant.

(** Events of a kind [k] that excludes [p] are not counted by [p]. *)
Lemma count_kind (k p : Event -> bool) evs :
  (forall e, k e = true -> p e = false) ->
  Forall (fun e => k e = true) evs ->
  count p evs = 0%nat.
Proof.
  intros Hk F. induction F as [|e evs He _ IH]; [reflexivity|].
  unfold count in *. cbn [filter]. rewrite (Hk e He). exact IH.
Qed.

Section Kinds.

Variable P : Platform.

Lemma forkChild_kinds srv killMaster mpid h :
  Forall (fun e => dispatcher_event e = true)
         (snd (forkChild P srv killMaster mpid h)).
Proof.
  unfold forkChild, createListenerFile.
  destruct (gs_Listener srv) as [[s|s|s]|]; run;
    repeat (answer; run); repeat constructor.
Qed.

Lemma shutDown_kinds srv h :
  Forall (fun e => dispatcher_event e = true) (snd (shutDown P srv h)).
Proof. rewrite shutDown_run. repeat constructor. Qed.

Lemma loop_kinds srv killMaster mpid sigs h :
  Forall (fun e => dispatcher_event e = true)
         (snd (handleSignals_loop P srv killMaster mpid sigs h)).
Proof.
  apply loop_Forall; intros; try reflexivity;
    auto using forkChild_kinds, shutDown_kinds.
Qed.

Lemma createListener_kinds srv h :
  Forall (fun e => acquisition_event e = true) (snd (createListener P srv h)).
Proof.
  unfold createListener, importListener, newListener. run.
  repeat (answer; run); repeat constructor.
Qed.

Lemma loop_kills srv killMaster mpid sigs h :
  Forall (signals_master killMaster mpid)
         (snd (handleSignals_loop P srv killMaster mpid sigs h)).
Proof.
  apply loop_Forall; unfold signals_master.
  - intros sig pid s res H. discriminate H.
  - intros l pid s res H. discriminate H.
  - intros h'. unfold forkChild, createListenerFile.
    destruct (gs_Listener srv) as [[s|s|s]|]; run;
      repeat (answer; run);
      repeat (apply Forall_cons;
              [ intros pid sg res H;
                first [ discriminate H
                      | injection H as ? ? ?; subst; repeat split ] |]);
      apply Forall_nil.
  - intros h'. rewrite shutDown_run.
    repeat (apply Forall_cons; [intros pid sg res H; discriminate H|]).
    apply Forall_nil.
Qed.

(** The run of [GracefulServe], from the listener acquisition on. *)
Lemma GracefulServe_run server killMaster sigs h :
  let srv0 := mkGracefulServer (server_Addr server) 0 server None in
  let '((err, srv), pre) := createListener P srv0 h in
  match err with
  | Some e =>
      GracefulServe P server killMaster sigs h =
        (Exited 1,
         pre ++ [EvLog (Printf "[ERR] Unable to create a listener: %v." [AErr e]);
                 EvExit 1])
  | None =>
      let launch := EvGoServe server (gs_Listener srv) in
      let pid := syscall_Getpid P (h ++ pre ++ [launch]) in
      let started :=
        EvLog (Printf "[INFO] The server has started (%d)." [AInt pid]) in
      let head := pre ++ [launch; EvGetpid pid; started] in
      let '(o, evs) :=
        handleSignals P (set_PID srv pid) killMaster pid sigs (h ++ head) in
      GracefulServe P server killMaster sigs h =
        match o with
        | Returned None =>
            (Returned (None, None),
             head ++ evs ++ [EvLog (Printf "[INFO] The server has shut down." [])])
        | Returned (Some e) =>
            (Exited 1,
             head ++ evs ++
             [EvLog (Printf "[ERR] The server has shut down: %v" [AErr e]);
              EvExit 1])
        | Exited c => (Exited c, head ++ evs)
        | Blocked => (Blocked, head ++ evs)
        end
  end.
Proof.
  intros srv0.
  pose proof (createListener_keeps P srv0 h) as K.
  unfold GracefulServe. fold srv0. run.
  destruct (createListener P srv0 h) as [[[e|] srv] pre].
  - run. reflexivity.
  - destruct K as (Ks & _). cbn [gs_Server srv0] in Ks.
    run. rewrite Ks. assoc.
    match goal with
    | |- context [handleSignals P ?s ?k ?m ?l ?t] =>
        destruct (handleSignals P s k m l t) as [o evs]
    end.
    destruct o as [[e|]| |]; run; assoc; try rewrite app_nil_r; reflexivity.
Qed.

End Kinds.

Lemma kind_excludes (k : Event -> bool) evs x :
  Forall (fun e => k e = true) evs -> k x = false -> ~ In x evs.
Proof.
  intros F Hx Hin. rewrite Forall_forall in F.
  specialize (F x Hin). congruence.
Qed.

Section ServeFacts.

Variable P : Platform.
Variables (server : http_Server) (killMaster : bool) (sigs : list Signal).
Variable h : History.

(** The events of a run of [GracefulServe] are those of the listener
    acquisition, then, when it succeeded, the launch, the reading of the
    process identifier and the start-up line, those of the signal loop run
    with that identifier, and at most two closing events. *)
Lemma GracefulServe_events :
  let srv0 := mkGracefulServer (server_Addr server) 0 server None in
  exists err srv pre mid tail,
    createListener P srv0 h = ((err, srv), pre) /\
    snd (GracefulServe P server killMaster sigs h) = pre ++ mid ++ tail /\
    Forall (fun e => acquisition_event e = true) pre /\
    (tail = [] \/ (exists l, tail = [EvLog l]) \/
     exists l, tail = [EvLog l; EvExit 1]) /\
    (mid = [] /\ err <> None \/
     exists lp,
       err = None /\
       let pid := syscall_Getpid P (h ++ pre ++ [EvGoServe server (gs_Listener srv)]) in
       mid = [EvGoServe server (gs_Listener srv); EvGetpid pid;
              EvLog (Printf "[INFO] The server has started (%d)." [AInt pid]);
              EvNotify sigHooks] ++ lp /\
       Forall (fun e => dispatcher_event e = true) lp /\
       Forall (signals_master killMaster pid) lp).
Proof.
  intros srv0.
  pose proof (GracefulServe_run P server killMaster sigs h) as R.
  pose proof (createListener_kinds P srv0 h) as K.
  cbv zeta in R. fold srv0 in R.
  destruct (createListener P srv0 h) as [[[e|] srv] pre]; cbn [snd] in K.
  - exists (Some e), srv, pre, [],
           [EvLog (Printf "[ERR] Unable to create a listener: %v." [AErr e]);
            EvExit 1].
    rewrite R. cbn [snd app].
    repeat split; try assumption.
    + right. right. eexists. reflexivity.
    + left. split; [reflexivity | discriminate].
  - set (pid := syscall_Getpid P (h ++ pre ++ [EvGoServe server (gs_Listener srv)])) in *.
    rewrite handleSignals_run in R.
    match type of R with
    | context [handleSignals_loop P ?s ?k ?m ?l ?t] =>
        pose proof (loop_kinds P s k m l t) as LK;
        pose proof (loop_kills P s k m l t) as LS;
        destruct (handleSignals_loop P s k m l t) as [o lp]
    end.
    cbn [snd] in LK, LS.
    assert (Shape : exists tail,
               snd (GracefulServe P server killMaster sigs h) =
                 pre ++ ([EvGoServe server (gs_Listener srv); EvGetpid pid;
                          EvLog (Printf "[INFO] The server has started (%d)."
                                        [AInt pid]);
                          EvNotify sigHooks] ++ lp) ++ tail /\
               (tail = [] \/ (exists l, tail = [EvLog l]) \/
                exists l, tail = [EvLog l; EvExit 1])).
    { rewrite R. destruct o as [[e|]| |]; cbn [snd]; eexists;
        (split; [repeat rewrite <- app_assoc; cbn [app]; try reflexivity|]).
      - right. right. eexists. reflexivity.
      - right. left. eexists. reflexivity.
      - rewrite app_nil_r. reflexivity.
      - left. reflexivity.
      - rewrite app_nil_r. reflexivity.
      - left. reflexivity. }
    destruct Shape as (tail & E & T).
    exists None, srv, pre,
           ([EvGoServe server (gs_Listener srv); EvGetpid pid;
             EvLog (Printf "[INFO] The server has started (%d)." [AInt pid]);
             EvNotify sigHooks] ++ lp), tail.
    rewrite E.
    repeat split; try assumption.
    right. exists lp. repeat split; assumption.
Qed.

End ServeFacts.

(** What the closing events of a run can be. *)
Ltac closing T :=
  destruct T as [-> | [(? & ->) | (? & ->)]].

(** X13.  The only signal a run of [GracefulServe] ever sends is the
    terminate signal, to the process identifier that [syscall.Getpid] gave
    it, and only when the kill-master flag is set: no other process is
    signalled. *)
Theorem X13_GracefulServe_signals_only_itself
        (P : Platform) server killMaster sigs h pid sig res :
  In (EvKill pid sig res) (snd (GracefulServe P server killMaster sigs h)) ->
  killMaster = true /\ sig = syscall_SIGTERM /\
  In (EvGetpid pid) (snd (GracefulServe P server killMaster sigs h)).
Proof.
  destruct (GracefulServe_events P server killMaster sigs h)
    as (err & srv & pre & mid & tail & _ & E & K & T & M).
  rewrite E. intros Hin.
  apply in_app_or in Hin. destruct Hin as [Hin | Hin].
  { exfalso. revert Hin. apply (kind_excludes acquisition_event); auto. }
  apply in_app_or in Hin. destruct Hin as [Hin | Hin].
  2:{ exfalso. closing T; sift. }
  destruct M as [[-> _] | (lp & _ & M & _ & S)]; [destruct Hin|].
  cbv zeta in M, S. rewrite M in *.
  apply in_app_or in Hin. destruct Hin as [Hin | Hin]; [sift|].
  rewrite Forall_forall in S.
  destruct (S _ Hin pid sig res eq_refl) as (Hk & Hp & Hs).
  repeat split; try assumption.
  apply in_or_app. right. apply in_or_app. left.
  rewrite Hp. cbn [In app]. tauto.
Qed.

Lemma X13_GracefulServe_signals_only_itself_witness :
  In (EvKill 52233 syscall_SIGTERM None)
     (snd (GracefulServe (Sim.platform Sim.calm) Sim.server true
                         [syscall_SIGUSR1] [])) /\
  In (EvGetpid 52233)
     (snd (GracefulServe (Sim.platform Sim.calm) Sim.server true
                         [syscall_SIGUSR1] [])).
Proof.
  assert (Hin : In (EvKill 52233 syscall_SIGTERM None)
                   (snd (GracefulServe (Sim.platform Sim.calm) Sim.server true
                                       [syscall_SIGUSR1] []))).
  { vm_compute. do 14 right. left. reflexivity. }
  split; [exact Hin|].
  apply (X13_GracefulServe_signals_only_itself _ _ _ _ _ _ _ _ Hin).
Defined.

(** X14.  How [GracefulServe] ends.  It exits the process, always with
    status 1 and a last log line that carries the error, in two cases: no
    listener could be bound (nothing was served), or the shutdown of the
    serving engine answered an error, a missed deadline included.  It
    returns only after a shutdown that answered nil.  While it waits for a
    signal no shutdown has been asked. *)
Theorem X14_GracefulServe_outcomes (P : Platform) server killMaster sigs h :
  (forall c evs,
      GracefulServe P server killMaster sigs h = (Exited c, evs) ->
      c = 1 /\
      exists pre format e,
        evs = pre ++ [EvLog (Printf format [AErr e]); EvExit 1] /\
        (In (EvListen DefaultNetwork (server_Addr server) (inr e)) evs /\
         count is_GoServe evs = 0%nat \/
         exists ctx, In (EvShutdown server ctx (Some e)) evs)) /\
  (forall r evs,
      GracefulServe P server killMaster sigs h = (Returned r, evs) ->
      exists ctx, In (EvShutdown server ctx None) evs) /\
  (forall evs,
      GracefulServe P server killMaster sigs h = (Blocked, evs) ->
      count is_Shutdown evs = 0%nat).
Proof.
  pose proof (GracefulServe_run P server killMaster sigs h) as R.
  set (srv0 := mkGracefulServer (server_Addr server) 0 server None) in *.
  pose proof (createListener_result P srv0 h) as CR.
  pose proof (createListener_kinds P srv0 h) as CK.
  pose proof (createListener_keeps P srv0 h) as CS.
  cbv zeta in R.
  destruct (createListener P srv0 h) as [[[e|] srv] pre]; cbn [snd] in CK.
  - (* no listener *)
    destruct CR as (_ & _ & L). cbn [gs_Addr srv0] in L.
    rewrite R. split; [|split]; intros; try discriminate.
    match goal with H : (_, _) = (_, _) |- _ => injection H as <- <- end.
    split; [reflexivity|]. do 3 eexists. split; [reflexivity|]. left. split.
    + apply in_or_app. left. exact L.
    + rewrite count_app, (count_kind acquisition_event is_GoServe pre); auto.
      intros [] Hk; try discriminate Hk; reflexivity.
  - (* serving *)
    destruct CS as (Ks & _). cbn [gs_Server srv0] in Ks.
    set (pid := syscall_Getpid P (h ++ pre ++ [EvGoServe server (gs_Listener srv)])) in *.
    set (head := pre ++ [EvGoServe server (gs_Listener srv); EvGetpid pid;
                         EvLog (Printf "[INFO] The server has started (%d)."
                                       [AInt pid])]) in *.
    pose proof (handleSignals_outcome P (set_PID srv pid) killMaster pid sigs
                                      (h ++ head)) as O.
    destruct (handleSignals P (set_PID srv pid) killMaster pid sigs (h ++ head))
      as [[[e|]|c|] hs]; rewrite R; cbn [gs_Server set_PID] in O;
      try rewrite Ks in O.
    + (* the shutdown answered an error *)
      destruct O as (p0 & now & E & _). cbv zeta in E.
      split; [|split]; intros; try discriminate.
      match goal with H : (_, _) = (_, _) |- _ => injection H as <- <- end.
      split; [reflexivity|].
      exists (head ++ hs), "[ERR] The server has shut down: %v", e.
      split; [now rewrite <- app_assoc|]. right. eexists.
      apply in_or_app. right. apply in_or_app. left.
      rewrite E. apply in_or_app. right. cbn [In]. right. right. left.
      reflexivity.
    + (* the shutdown answered nil *)
      destruct O as (p0 & now & E & _). cbv zeta in E.
      split; [|split]; intros; try discriminate.
      match goal with H : (_, _) = (_, _) |- _ => injection H as <- <- end.
      eexists.
      apply in_or_app. right. apply in_or_app. left.
      rewrite E. apply in_or_app. right. cbn [In]. right. right. left.
      reflexivity.
    + destruct O.
    + (* waiting *)
      split; [|split]; intros; try discriminate.
      match goal with H : (_, _) = (_, _) |- _ => injection H as <- end.
      unfold head. rewrite !count_app, O.
      rewrite (count_kind acquisition_event is_Shutdown pre); auto.
      intros [] Hk; try discriminate Hk; reflexivity.
Qed.

Lemma X14_GracefulServe_outcomes_witness :
  (* the engine misses the deadline: the process exits *)
  fst (GracefulServe (Sim.platform Sim.stuck) Sim.server false
                     [syscall_SIGTERM] []) = Exited 1 /\
  (* the engine drains: the function returns *)
  (exists ctx,
      In (EvShutdown Sim.server ctx None)
         (snd (GracefulServe (Sim.platform Sim.calm) Sim.server false
                             [syscall_SIGTERM] []))) /\
  (* no signal yet *)
  count is_Shutdown
        (snd (GracefulServe (Sim.platform Sim.calm) Sim.server false [] []))
    = 0%nat.
Proof.
  split; [|split].
  - destruct (GracefulServe (Sim.platform Sim.stuck) Sim.server false
                            [syscall_SIGTERM] []) as [o evs] eqn:E.
    destruct o as [r|c|]; try (vm_compute in E; discriminate E).
    cbn [fst]. f_equal.
    apply (proj1 (X14_GracefulServe_outcomes
                    (Sim.platform Sim.stuck) Sim.server false
                    [syscall_SIGTERM] []) c evs E).
  - destruct (GracefulServe (Sim.platform Sim.calm) Sim.server false
                            [syscall_SIGTERM] []) as [o evs] eqn:E.
    destruct o as [r|c|]; try (vm_compute in E; discriminate E).
    cbn [snd].
    apply (proj1 (proj2 (X14_GracefulServe_outcomes
                           (Sim.platform Sim.calm) Sim.server false
                           [syscall_SIGTERM] [])) r evs E).
  - destruct (GracefulServe (Sim.platform Sim.calm) Sim.server false [] [])
      as [o evs] eqn:E.
    destruct o as [r|c|]; try (vm_compute in E; discriminate E).
    cbn [snd].
    apply (proj2 (proj2 (X14_GracefulServe_outcomes
                           (Sim.platform Sim.calm) Sim.server false [] []))
                 evs E).
Defined.

(** X15.  A run of [GracefulServe] never calls [Close] on the server,
    launches the serving goroutine at most once, on the caller's server and
    on a listener that is not nil, and calls [net.Listen] at most once:
    handling signals, forks included, never binds again. *)
Theorem X15_GracefulServe_serves_once_on_a_listener
        (P : Platform) server killMaster sigs h :
  let evs := snd (GracefulServe P server killMaster sigs h) in
  count is_ServerClose evs = 0%nat /\
  (count is_GoServe evs <= 1)%nat /\
  (count is_Listen evs <= 1)%nat /\
  (forall s l,
      In (EvGoServe s l) evs -> s = server /\ exists l', l = Some l').
Proof.
  cbv zeta.
  destruct (GracefulServe_events P server killMaster sigs h)
    as (err & srv & pre & mid & tail & C & E & K & T & M).
  pose proof (createListener_result
                P (mkGracefulServer (server_Addr server) 0 server None) h) as CR.
  rewrite C in CR. destruct CR as (CL & CR).
  rewrite E.
  assert (Npre : forall p, (forall e, acquisition_event e = true -> p e = false) ->
                           count p pre = 0%nat).
  { intros p Hp. apply (count_kind acquisition_event); assumption. }
  assert (Ntail : count is_ServerClose tail = 0%nat /\
                  count is_GoServe tail = 0%nat /\
                  count is_Listen tail = 0%nat /\
                  forall s l, ~ In (EvGoServe s l) tail).
  { closing T; (split; [|split; [|split]]); try reflexivity;
      intros ? ? Hin; sift. }
  destruct Ntail as (T1 & T2 & T3 & T4).
  assert (Nmid : count is_ServerClose mid = 0%nat /\
                 (count is_GoServe mid <= 1)%nat /\
                 count is_Listen mid = 0%nat /\
                 forall s l, In (EvGoServe s l) mid ->
                             s = server /\ l = gs_Listener srv /\ err = None).
  { destruct M as [[-> _] | (lp & -> & M & D & _)].
    - split; [|split; [|split]]; try (cbn; lia);
        try (intros ? ? Hin; destruct Hin).
    - cbv zeta in M. rewrite M.
      assert (Nlp : forall p, (forall e, dispatcher_event e = true -> p e = false) ->
                              count p lp = 0%nat).
      { intros p Hp. apply (count_kind dispatcher_event); assumption. }
      rewrite !count_app.
      rewrite (Nlp is_ServerClose), (Nlp is_GoServe), (Nlp is_Listen);
        try (intros [] Hk; try discriminate Hk; reflexivity).
      split; [|split; [|split]]; try (cbn; lia).
      intros s0 l0 Hin.
      apply in_app_or in Hin. destruct Hin as [Hin | Hin].
      + sift; repeat split.
      + exfalso. revert Hin. apply (kind_excludes dispatcher_event); auto. }
  destruct Nmid as (M1 & M2 & M3 & M4).
  rewrite !count_app, T1, T2, T3, M1, M3.
  rewrite (Npre is_ServerClose), (Npre is_GoServe);
    try (intros [] Hk; try discriminate Hk; reflexivity).
  split; [|split; [|split]]; try lia.
  intros s0 l0 Hin.
  apply in_app_or in Hin. destruct Hin as [Hin | Hin].
  { exfalso. revert Hin. apply (kind_excludes acquisition_event); auto. }
  apply in_app_or in Hin. destruct Hin as [Hm | Ht].
  - destruct (M4 _ _ Hm) as (-> & -> & ->).
    destruct CR as (l' & -> & _). split; [reflexivity|]. eexists. reflexivity.
  - exfalso. apply (T4 _ _ Ht).
Qed.

Lemma X15_GracefulServe_serves_once_witness :
  In (EvGoServe Sim.server (Some (TCPListener 6)))
     (snd (GracefulServe (Sim.platform Sim.calm) Sim.server false
                         [syscall_SIGUSR1; syscall_SIGHUP] [])) /\
  exists l', Some (TCPListener 6) = Some l'.
Proof.
  assert (Hin : In (EvGoServe Sim.server (Some (TCPListener 6)))
                   (snd (GracefulServe (Sim.platform Sim.calm) Sim.server false
                                       [syscall_SIGUSR1; syscall_SIGHUP] []))).
  { vm_compute. do 3 right. left. reflexivity. }
  split; [exact Hin|].
  apply (proj2 (proj2 (proj2 (X15_GracefulServe_serves_once_on_a_listener
                                (Sim.platform Sim.calm) Sim.server false
                                [syscall_SIGUSR1; syscall_SIGHUP] [])))
               _ _ Hin).
Defined.

(** X16.  A process started with a payload that can be imported (it parses,
    carries the server's address, and the slot it names gives a file that is
    a listener) serves on the inherited listener, and never calls
    [net.Listen] in its whole run, whatever signals it then handles. *)
Theorem X16_inherited_listener_is_served_without_binding
        (P : Platform) server killMaster sigs h fl f l :
  let env := os_Getenv P h DefaultEnvVar in
  let h1 := h ++ [EvGetenv DefaultEnvVar env] in
  let opened := EvNewFile (uintptr (FD fl)) (Name fl) (Some f) in
  env <> "" ->
  json_Unmarshal P env = inl fl ->
  Addr fl = server_Addr server ->
  os_NewFile P h1 (uintptr (FD fl)) (Name fl) = Some f ->
  net_FileListener P (h1 ++ [opened]) f = inl l ->
  (exists rest,
      snd (GracefulServe P server killMaster sigs h) =
        [EvGetenv DefaultEnvVar env; opened; EvFileListener f (inl l);
         EvFileClose f; EvLog (Println "[INFO] Imported a listener from file.");
         EvGoServe server (Some l)] ++ rest) /\
  count is_Listen (snd (GracefulServe P server killMaster sigs h)) = 0%nat.
Proof.
  intros env h1 opened Hne Hu Ha Hf Hl.
  set (srv0 := mkGracefulServer (server_Addr server) 0 server None).
  assert (C : createListener P srv0 h =
              ((None, set_Listener srv0 (Some l)),
               [EvGetenv DefaultEnvVar env; opened; EvFileListener f (inl l);
                EvFileClose f;
                EvLog (Println "[INFO] Imported a listener from file.")])).
  { assert (Hnb : negb (String.eqb env "") = true).
    { apply negb_true_iff, String.eqb_neq, Hne. }
    unfold createListener, importListener. run. fold env. rewrite Hnb.
    fold h1. rewrite Hu. cbn [gs_Addr srv0].
    apply String.eqb_eq in Ha. rewrite Ha. cbn [negb]. run.
    rewrite Hf. run. fold opened. rewrite Hl. run. reflexivity. }
  destruct (GracefulServe_events P server killMaster sigs h)
    as (err & srv & pre & mid & tail & C' & E & K & T & M).
  fold srv0 in C'. rewrite C in C'. injection C' as <- <- <-.
  destruct M as [[_ M] | (lp & _ & M & D & _)]; [now contradiction M|].
  cbv zeta in M. cbn [gs_Listener set_Listener] in M.
  rewrite E, M. split.
  - eexists. cbn [app]. reflexivity.
  - rewrite !count_app.
    rewrite (count_kind dispatcher_event is_Listen lp); auto.
    + closing T; reflexivity.
    + intros [] Hk; try discriminate Hk; reflexivity.
Qed.

Lemma X16_inherited_listener_witness :
  count is_Listen
        (snd (GracefulServe
                (Sim.platform
                   (Sim.inherited "localhost:8080" "tcp:127.0.0.1:8080->" 3))
                Sim.server false [syscall_SIGUSR2; syscall_SIGTERM] []))
    = 0%nat.
Proof.
  apply (X16_inherited_listener_is_served_without_binding
           (Sim.platform
              (Sim.inherited "localhost:8080" "tcp:127.0.0.1:8080->" 3))
           Sim.server false [syscall_SIGUSR2; syscall_SIGTERM] []
           (mkDescriptor "localhost:8080" 3 "tcp:127.0.0.1:8080->")
           (mkFile 3 "tcp:127.0.0.1:8080->") (TCPListener 3)).
  - vm_compute. discriminate.
  - vm_compute. reflexivity.
  - reflexivity.
  - vm_compute. reflexivity.
  - vm_compute. reflexivity.
Defined.

(** With the kill-master flag set, a started child and a failed
    [syscall.Kill], the error of [forkChild] is the one built from the
    failure of the kill. *)
Lemma forkChild_kill_failed (P : Platform) srv mpid h name argv attr p e :
  let run := forkChild P srv true mpid h in
  In (EvStartProcess name argv attr (inl p)) (snd run) ->
  In (EvKill mpid syscall_SIGTERM (Some e)) (snd run) ->
  fst run = Some (errors_New "unable to kill the master (%d): %v"
                             [AInt mpid; AErr e]).
Proof.
  unfold forkChild, createListenerFile.
  destruct (gs_Listener srv) as [[s|s|s]|]; run;
    repeat (answer; run); cbv zeta; cbn [fst snd]; intros Hs Hk; sift;
    congruence.
Qed.

(** X17.  A hangup handled with the kill-master flag set, when the child was
    started but the terminate signal could not be sent to the master: the
    master logs the error and goes on handling signals, no shutdown
    attempted, while the child it started runs too. *)
Theorem X17_hangup_with_failed_self_terminate
        (P : Platform) srv mpid rest h name argv attr p e :
  let pre := received mpid syscall_SIGHUP in
  let fk := snd (forkChild P srv true mpid (h ++ pre)) in
  In (EvStartProcess name argv attr (inl p)) fk ->
  In (EvKill mpid syscall_SIGTERM (Some e)) fk ->
  let evs :=
    pre ++ fk ++
    [fork_failure (errors_New "unable to kill the master (%d): %v"
                              [AInt mpid; AErr e])] in
  count is_Shutdown evs = 0%nat /\
  handleSignals_loop P srv true mpid (syscall_SIGHUP :: rest) h =
    (let (o, more) := handleSignals_loop P srv true mpid rest (h ++ evs) in
     (o, evs ++ more)).
Proof.
  intros pre fk Hs Hk evs.
  pose proof (forkChild_kill_failed P srv mpid (h ++ pre) _ _ _ _ _ Hs Hk) as F.
  pose proof (forkChild_events P srv true mpid (h ++ pre)) as C.
  cbv zeta in F. subst evs fk.
  destruct (forkChild P srv true mpid (h ++ pre)) as [r fk0] eqn:E.
  cbn [fst snd] in *. subst r. destruct C as (C & _). split.
  - rewrite !count_app, C. reflexivity.
  - rewrite loop_step, hangup_body. cbv zeta. fold pre. rewrite E.
    reflexivity.
Qed.

Lemma X17_hangup_with_failed_self_terminate_witness :
  fst (handleSignals_loop (Sim.platform Sim.kill_failing) Sim.master true 52233
                          [syscall_SIGHUP] []) = Blocked.
Proof.
  edestruct (X17_hangup_with_failed_self_terminate
               (Sim.platform Sim.kill_failing) Sim.master 52233 [] [])
    as [_ H].
  - vm_compute. do 3 right. left. reflexivity.
  - vm_compute. do 5 right. left. reflexivity.
  - rewrite H. vm_compute. reflexivity.
Defined.

(** The run of [GracefulServeTLS], from the listener acquisition on. *)
Lemma GracefulServeTLS_run (P : Platform) server killMaster certFile keyFile
      sigs h :
  let srv0 := mkGracefulServer (server_Addr server) 0 server None in
  let '((err, srv), pre) := createListener P srv0 h in
  match err with
  | Some e =>
      GracefulServeTLS P server killMaster certFile keyFile sigs h =
        (Exited 1,
         pre ++ [EvLog (Printf "[ERR] Unable to create a listener: %v." [AErr e]);
                 EvExit 1])
  | None =>
      let launch := EvGoServeTLS server (gs_Listener srv) certFile keyFile in
      let close :=
        EvServerClose server (server_Close P (h ++ pre ++ [launch]) server) in
      let pid := syscall_Getpid P (h ++ pre ++ [launch; close]) in
      let started :=
        EvLog (Printf "[INFO] The server has started (%d)." [AInt pid]) in
      let head := pre ++ [launch; close; EvGetpid pid; started] in
      let '(o, evs) :=
        handleSignals P (set_PID srv pid) killMaster pid sigs (h ++ head) in
      GracefulServeTLS P server killMaster certFile keyFile sigs h =
        match o with
        | Returned None =>
            (Returned None,
             head ++ evs ++ [EvLog (Printf "[INFO] The server has shut down." [])])
        | Returned (Some e) =>
            (Exited 1,
             head ++ evs ++
             [EvLog (Printf "[ERR] The server has shut down: %v" [AErr e]);
              EvExit 1])
        | Exited c => (Exited c, head ++ evs)
        | Blocked => (Blocked, head ++ evs)
        end
  end.
Proof.
  intros srv0.
  pose proof (createListener_keeps P srv0 h) as K.
  unfold GracefulServeTLS. fold srv0. run.
  destruct (createListener P srv0 h) as [[[e|] srv] pre].
  - run. reflexivity.
  - destruct K as (Ks & _). cbn [gs_Server srv0] in Ks.
    run. rewrite Ks. assoc.
    match goal with
    | |- context [handleSignals P ?s ?k ?m ?l ?t] =>
        destruct (handleSignals P s k m l t) as [o evs]
    end.
    destruct o as [[e|]| |]; run; assoc; try rewrite app_nil_r; reflexivity.
Qed.

(** X18.  How [GracefulServeTLS] ends, whatever [Close] answered (its answer
    is not looked at).  It returns, and then a nil error, only after a
    shutdown that answered nil; when the shutdown answers an error it logs
    it and exits the process with status 1; it never returns an error.
    [Close] is called once in a run that acquired a listener and never in
    one that did not. *)
Theorem X18_GracefulServeTLS_outcomes
        (P : Platform) server killMaster certFile keyFile sigs h :
  (forall r evs,
      GracefulServeTLS P server killMaster certFile keyFile sigs h
        = (Returned r, evs) ->
      r = None /\ exists ctx, In (EvShutdown server ctx None) evs) /\
  (forall c evs,
      GracefulServeTLS P server killMaster certFile keyFile sigs h
        = (Exited c, evs) ->
      c = 1 /\
      exists pre format e,
        evs = pre ++ [EvLog (Printf format [AErr e]); EvExit 1] /\
        (In (EvListen DefaultNetwork (server_Addr server) (inr e)) evs /\
         count is_ServeTLS evs = 0%nat /\ count is_ServerClose evs = 0%nat \/
         exists ctx, In (EvShutdown server ctx (Some e)) evs)) /\
  (forall srv pre,
      createListener P (mkGracefulServer (server_Addr server) 0 server None) h
        = ((None, srv), pre) ->
      count is_ServerClose
            (snd (GracefulServeTLS P server killMaster certFile keyFile sigs h))
        = 1%nat).
Proof.
  pose proof (GracefulServeTLS_run P server killMaster certFile keyFile sigs h)
    as R.
  set (srv0 := mkGracefulServer (server_Addr server) 0 server None) in *.
  pose proof (createListener_result P srv0 h) as CR.
  pose proof (createListener_kinds P srv0 h) as CK.
  pose proof (createListener_keeps P srv0 h) as CS.
  cbv zeta in R.
  assert (Npre : forall pre p,
             Forall (fun e => acquisition_event e = true) pre ->
             (forall e, acquisition_event e = true -> p e = false) ->
             count p pre = 0%nat).
  { intros pre p F Hp. apply (count_kind acquisition_event); assumption. }
  destruct (createListener P srv0 h) as [[[e|] srv] pre]; cbn [snd] in CK.
  - destruct CR as (_ & _ & L). cbn [gs_Addr srv0] in L.
    rewrite R. split; [|split]; intros; try discriminate.
    match goal with H : (_, _) = (_, _) |- _ => injection H as <- <- end.
    split; [reflexivity|]. do 3 eexists. split; [reflexivity|]. left.
    split; [apply in_or_app; left; exact L|].
    rewrite !count_app, (Npre pre is_ServeTLS), (Npre pre is_ServerClose); auto;
      intros [] Hk; try discriminate Hk; reflexivity.
  - destruct CS as (Ks & _). cbn [gs_Server srv0] in Ks.
    set (launch := EvGoServeTLS server (gs_Listener srv) certFile keyFile) in *.
    set (close := EvServerClose server
                    (server_Close P (h ++ pre ++ [launch]) server)) in *.
    set (pid := syscall_Getpid P (h ++ pre ++ [launch; close])) in *.
    set (head := pre ++ [launch; close; EvGetpid pid;
                         EvLog (Printf "[INFO] The server has started (%d)."
                                       [AInt pid])]) in *.
    pose proof (handleSignals_outcome P (set_PID srv pid) killMaster pid sigs
                                      (h ++ head)) as O.
    rewrite handleSignals_run in R, O.
    pose proof (loop_kinds P (set_PID srv pid) killMaster pid
                           (signal_Notify sigHooks sigs)
                           ((h ++ head) ++ [EvNotify sigHooks])) as LK.
    destruct (handleSignals_loop P (set_PID srv pid) killMaster pid
                                 (signal_Notify sigHooks sigs)
                                 ((h ++ head) ++ [EvNotify sigHooks]))
      as [o lp].
    cbn [snd] in LK. cbn [gs_Server set_PID] in O. rewrite Ks in O.
    assert (Hhs : count is_ServerClose (EvNotify sigHooks :: lp) = 0%nat).
    { change (EvNotify sigHooks :: lp) with ([EvNotify sigHooks] ++ lp).
      rewrite count_app, (count_kind dispatcher_event is_ServerClose lp).
      - reflexivity.
      - intros [] Hk; try discriminate Hk; reflexivity.
      - exact LK. }
    set (hs := EvNotify sigHooks :: lp) in *. clearbody hs.
    assert (Close1 : forall tail,
               count is_ServerClose tail = 0%nat ->
               count is_ServerClose (head ++ hs ++ tail) = 1%nat).
    { intros tail Ht. unfold head.
      rewrite !count_app, Ht, Hhs, (Npre pre is_ServerClose CK).
      - reflexivity.
      - intros [] Hk; try discriminate Hk; reflexivity. }
    destruct o as [[e|]|c|]; rewrite R; try (destruct O; fail).
    + destruct O as (p0 & now & E & _). cbv zeta in E.
      split; [|split]; intros; try discriminate.
      * match goal with H : (_, _) = (_, _) |- _ => injection H as <- <- end.
        split; [reflexivity|].
        exists (head ++ hs), "[ERR] The server has shut down: %v", e.
        split; [now rewrite <- app_assoc|]. right. eexists.
        apply in_or_app. right. apply in_or_app. left.
        rewrite E. apply in_or_app. right. cbn [In]. right. right. left.
        reflexivity.
      * cbn [snd]. apply Close1. reflexivity.
    + destruct O as (p0 & now & E & _). cbv zeta in E.
      split; [|split]; intros; try discriminate.
      * match goal with H : (_, _) = (_, _) |- _ => injection H as <- <- end.
        split; [reflexivity|]. eexists.
        apply in_or_app. right. apply in_or_app. left.
        rewrite E. apply in_or_app. right. cbn [In]. right. right. left.
        reflexivity.
      * cbn [snd]. apply Close1. reflexivity.
    + split; [|split]; intros; try discriminate.
      cbn [snd]. rewrite <- (app_nil_r hs).
      apply Close1. reflexivity.
Qed.

Lemma X18_GracefulServeTLS_outcomes_witness :
  fst (GracefulServeTLS (Sim.platform Sim.calm) Sim.server false
                        "cert.pem" "key.pem" [syscall_SIGINT] [])
    = Returned None /\
  fst (GracefulServeTLS (Sim.platform Sim.stuck) Sim.server false
                        "cert.pem" "key.pem" [syscall_SIGINT] [])
    = Exited 1 /\
  count is_ServerClose
        (snd (GracefulServeTLS (Sim.platform Sim.calm) Sim.server false
                               "cert.pem" "key.pem" [] [])) = 1%nat.
Proof.
  split; [|split].
  - destruct (GracefulServeTLS (Sim.platform Sim.calm) Sim.server false
                               "cert.pem" "key.pem" [syscall_SIGINT] [])
      as [o evs] eqn:E.
    destruct o as [r|c|]; try (vm_compute in E; discriminate E).
    cbn [fst]. f_equal.
    apply (proj1 (X18_GracefulServeTLS_outcomes
                    (Sim.platform Sim.calm) Sim.server false
                    "cert.pem" "key.pem" [syscall_SIGINT] []) r evs E).
  - destruct (GracefulServeTLS (Sim.platform Sim.stuck) Sim.server false
                               "cert.pem" "key.pem" [syscall_SIGINT] [])
      as [o evs] eqn:E.
    destruct o as [r|c|]; try (vm_compute in E; discriminate E).
    cbn [fst]. f_equal.
    apply (proj1 (proj2 (X18_GracefulServeTLS_outcomes
                           (Sim.platform Sim.stuck) Sim.server false
                           "cert.pem" "key.pem" [syscall_SIGINT] [])) c evs E).
  - eapply (proj2 (proj2 (X18_GracefulServeTLS_outcomes
                            (Sim.platform Sim.calm) Sim.server false
                            "cert.pem" "key.pem" [] []))).
    vm_compute. reflexivity.
Defined.

Section Relay.

Variable P : Platform.
Variables (srv : GracefulServer) (killMaster : bool) (mpid : Z).








End Relay.



